(** * Verification of pyrelatics2: response normalisation (result_classes.py)
      and the webservice client (client.py).

    The suds object tree is modelled as a generic attribute tree; the
    parts of the Python standard library the code calls (datetime's
    [time.fromisoformat], [base64.b64decode], [zipfile], suds' own [repr]
    and [str] of objects) are section variables: every theorem holds for
    every behaviour of these library functions. *)

From Stdlib Require Import String Ascii ZArith List Bool Lia.
From stdpp Require Import base strings gmap.
Import ListNotations.
Open Scope Z_scope.

(* ------------------------------------------------------------------ *)
(** ** Python exceptions and a small error monad *)

Inductive exc :=
  | AttributeError | TypeError | ValueError | KeyError | RuntimeError
  | OverflowError | BadZipFile | BinasciiError | FileNotFoundError.

Inductive res (A : Type) :=
  | Ok (a : A)
  | Err (e : exc).
Arguments Ok {A} a.
Arguments Err {A} e.

Definition res_bind {A B} (m : res A) (k : A -> res B) : res B :=
  match m with Ok a => k a | Err e => Err e end.

Notation "'let*' x := m 'in' k" := (res_bind m (fun x => k))
  (at level 200, x name, m at level 100, k at level 200).

Definition of_option {A} (e : exc) (o : option A) : res A :=
  match o with Some a => Ok a | None => Err e end.

(* ------------------------------------------------------------------ *)
(** ** Python strings *)

Module PyStr.

(** [s1 in s2] for two str values. *)
Fixpoint contains (needle hay : string) : bool :=
  String.prefix needle hay ||
  match hay with
  | EmptyString => false
  | String _ t => contains needle t
  end.

(** [s[n:]] *)
Fixpoint drop (n : nat) (s : string) : string :=
  match n, s with
  | O, _ => s
  | S _, EmptyString => EmptyString
  | S n', String _ t => drop n' t
  end.

Definition is_space (c : ascii) : bool :=
  match nat_of_ascii c with
  | 32%nat | 9%nat | 10%nat | 11%nat | 12%nat | 13%nat => true
  | _ => false
  end.

Definition is_digit (c : ascii) : bool :=
  (48 <=? nat_of_ascii c)%nat && (nat_of_ascii c <=? 57)%nat.

Definition digit_val (c : ascii) : Z := Z.of_nat (nat_of_ascii c) - 48.

Fixpoint strip_left (cs : list ascii) : list ascii :=
  match cs with
  | c :: t => if is_space c then strip_left t else cs
  | [] => []
  end.

Definition strip (cs : list ascii) : list ascii :=
  rev (strip_left (rev (strip_left cs))).

(** Digits with single underscores between them, as [int()] accepts. *)
Fixpoint digits_go (cs : list ascii) (acc : Z) (prev_us : bool) : option Z :=
  match cs with
  | [] => if prev_us then None else Some acc
  | c :: t =>
      if is_digit c then digits_go t (acc * 10 + digit_val c) false
      else if (Ascii.eqb c "_") && negb prev_us then digits_go t acc true
      else None
  end.

Definition digits (cs : list ascii) : option Z :=
  match cs with
  | d :: t => if is_digit d then digits_go t (digit_val d) false else None
  | [] => None
  end.

(** [int(s)] for a str [s] in base 10 (ASCII input); [None] is the
    ValueError. *)
Definition py_int (s : string) : option Z :=
  match strip (list_ascii_of_string s) with
  | c :: t =>
      if Ascii.eqb c "-" then option_map Z.opp (digits t)
      else if Ascii.eqb c "+" then digits t
      else digits (c :: t)
  | [] => None
  end.

End PyStr.

(* ------------------------------------------------------------------ *)
(** ** suds objects

    A value of the response tree is a text node ([suds.sax.text.Text], a
    subclass of str), a suds [Object] (its attributes in [__keylist__]
    order) or a Python list (a repeated element such as [Message[]]). *)

#[warnings="-register-all"]
Inductive sval :=
  | SText (s : string)
  | SObj (fs : list (string * sval))
  | SList (xs : list sval).

Fixpoint assoc {A} (k : string) (fs : list (string * A)) : option A :=
  match fs with
  | [] => None
  | (k', v) :: t => if String.eqb k k' then Some v else assoc k t
  end.

(** [getattr(v, k)]: only suds objects carry the attributes looked up by
    the code (str, list and tuple have none of these names). *)
Definition sattr (v : sval) (k : string) : option sval :=
  match v with SObj fs => assoc k fs | _ => None end.

(** [hasattr(r, k)] on a response that may be [None]. *)
Definition hasattr (r : option sval) (k : string) : bool :=
  match r with
  | Some v => if sattr v k then true else false
  | None => false
  end.

(** [getattr] raising AttributeError when missing. *)
Definition getattr (v : sval) (k : string) : res sval :=
  of_option AttributeError (sattr v k).

(** Iterating a value: a list yields its items, a suds object its
    [(name, value)] tuples (modelled as two-item lists), a str its
    one-character strings. *)
Definition py_iter (v : sval) : list sval :=
  match v with
  | SList xs => xs
  | SObj fs => map (fun kv => SList [SText kv.1; kv.2]) fs
  | SText s => map (fun c => SText (String c EmptyString)) (list_ascii_of_string s)
  end.

Definition py_len (v : sval) : nat :=
  match v with
  | SList xs => length xs
  | SObj fs => length fs
  | SText s => String.length s
  end.

(** [v[0]]: a suds object maps an int index to its [__keylist__] entry. *)
Definition py_index0 (v : sval) : res sval :=
  match v with
  | SList (x :: _) => Ok x
  | SObj ((_, x) :: _) => Ok x
  | SText (String c _) => Ok (SText (String c EmptyString))
  | _ => Err AttributeError
  end.

(** [v == "lit"]: a Text compares as its string, anything else is unequal. *)
Definition eq_str (v : sval) (lit : string) : bool :=
  match v with SText s => String.eqb s lit | _ => false end.

(** [needle in v] *)
Definition py_in (needle : string) (v : sval) : bool :=
  match v with
  | SText s => PyStr.contains needle s
  | SObj fs => existsb (fun kv => String.eqb kv.1 needle) fs
  | SList xs => existsb (fun x => eq_str x needle) xs
  end.

(** [int(v[n:])]: slicing a non-str and passing the result to [int]
    raises TypeError. *)
Definition int_from (n : nat) (v : sval) : res Z :=
  match v with
  | SText s => of_option ValueError (PyStr.py_int (PyStr.drop n s))
  | _ => Err TypeError
  end.

(** [del v.k] on a suds object. *)
Definition delattr (v : sval) (k : string) : sval :=
  match v with
  | SObj fs => SObj (List.filter (fun kv => negb (String.eqb kv.1 k)) fs)
  | _ => v
  end.

(** Replace the first attribute [k] of a suds object by [f] of its value
    (the in-place [del suds_response.Report.Documents]). *)
Fixpoint update_first (k : string) (f : sval -> sval)
    (fs : list (string * sval)) : list (string * sval) :=
  match fs with
  | [] => []
  | (k', v) :: t =>
      if String.eqb k k' then (k', f v) :: t else (k', v) :: update_first k f t
  end.

Definition update_attr (v : sval) (k : string) (f : sval -> sval) : sval :=
  match v with SObj fs => SObj (update_first k f fs) | _ => v end.

Notation "'let*' ' p := m 'in' k" :=
  (res_bind m (fun x => match x with p => k end))
  (at level 200, p pattern, m at level 100, k at level 200).

Fixpoint res_fold {A B} (f : A -> B -> res A) (a : A) (xs : list B) : res A :=
  match xs with
  | [] => Ok a
  | x :: t => let* a' := f a x in res_fold f a' t
  end.

(* ------------------------------------------------------------------ *)
(** ** result_classes.py *)

Module Results.

Definition bytes := list Byte.byte.

(** An attribute of [BaseResult]: assigned on the instance, or never
    assigned, in which case Python finds the class attribute, the
    [dataclasses.Field] object created by [dataclasses.field(...)] in the
    body of the (non-dataclass) [BaseResult]. *)
Inductive slot (A : Type) :=
  | Assigned (a : A)
  | ClassField.
Arguments Assigned {A} a.
Arguments ClassField {A}.

(** Truthiness: a [Field] object has no [__bool__] or [__len__]. *)
Definition truthy (s : slot bool) : bool :=
  match s with Assigned b => b | ClassField => true end.

Record base := mk_base { has_error : slot bool; error_msg : slot string }.

Definition base0 : base := mk_base ClassField ClassField.

(** Python dict assignment [d[k] = v], keeping insertion order. *)
Fixpoint dict_set {V} (k : string) (v : V) (d : list (string * V)) : list (string * V) :=
  match d with
  | [] => [(k, v)]
  | (k', v') :: t => if String.eqb k k' then (k, v) :: t else (k', v') :: dict_set k v t
  end.

Record ImportMessage {time_t : Type} := mk_message {
  time : time_t; status : sval; message : sval; row : Z }.
Arguments ImportMessage : clear implicits.

Record ImportElement := mk_element {
  action : sval; id : sval; foreign_key : sval }.

Record ExportResult := mk_export {
  ex_base : base; data : option sval; documents : list (string * bytes) }.

Record ImportResult {time_t : Type} := mk_import {
  im_base : base;
  messages : list (ImportMessage time_t);
  elements : list ImportElement;
  total_rows : option Z;
  elapsed_time : option Z  (** milliseconds of the timedelta *) }.
Arguments ImportResult : clear implicits.

(** [ExportResult.__bool__] and [ImportResult.__bool__]: [not self.has_error]. *)
Definition export_bool (r : ExportResult) : bool := negb (truthy (has_error (ex_base r))).
Definition import_bool {T} (r : ImportResult T) : bool := negb (truthy (has_error (im_base r))).

(** [datetime.timedelta(milliseconds=n)]: OverflowError outside
    [timedelta.min .. timedelta.max] (|days| <= 999999999). *)
Definition timedelta_ms (n : Z) : res Z :=
  if (- 999999999 * 86400000 <=? n) && (n <? 1000000000 * 86400000)
  then Ok n else Err OverflowError.

Section Library.

Variable time_t : Type.
(** [datetime.time.fromisoformat] on a str; [None] is its ValueError. *)
Variable fromisoformat : string -> option time_t.
(** [base64.b64decode]; [None] is binascii.Error. *)
Variable b64decode : string -> option bytes.
(** [zipfile.ZipFile(io.BytesIO(raw)).filelist], each entry with the
    bytes its [read] returns; [None] is BadZipFile. *)
Variable zip_filelist : bytes -> option (list (string * bytes)).
(** suds' [repr] and [str] of a non-text object. *)
Variable suds_repr : sval -> string.
Variable suds_str : sval -> string.

Definition py_str (v : sval) : string :=
  match v with SText s => s | _ => suds_str v end.

Definition py_repr (r : option sval) : string :=
  match r with None => "None"%string | Some v => suds_repr v end.

(** [BaseResult.handle_suds_response_errors]. The call [repr()] without
    an argument, on an Export without [_Error], raises TypeError. *)
Definition handle_suds_response_errors (r : option sval) (b : base) : res base :=
  let b1 := match r with
            | None => mk_base (Assigned true) (Assigned "")
            | Some _ => b
            end in
  match r with
  | Some v =>
      match sattr v "Export" with
      | Some e =>
          match sattr e "_Error" with
          | Some m => Ok (mk_base (Assigned true) (Assigned (py_str m)))
          | None => Err TypeError
          end
      | None => Ok b1
      end
  | None => Ok b1
  end.

(** [docs_zip.read(name)]: the last member of that name. *)
Definition zip_read (entries : list (string * bytes)) (name : string) : res bytes :=
  of_option KeyError (assoc name (rev entries)).

(** The loop filling [result.documents]. *)
Definition read_documents (entries : list (string * bytes)) : res (list (string * bytes)) :=
  res_fold (fun docs zf => let* d := zip_read entries zf.1 in Ok (dict_set zf.1 d docs))
    [] entries.

(** [ExportResult.from_suds]. *)
Definition export_from_suds (r : option sval) : res ExportResult :=
  let* b := handle_suds_response_errors r base0 in
  let* '(b, docs, r') :=
    match r with
    | Some v =>
        match sattr v "Report" with
        | Some rep =>
            match sattr rep "Documents" with
            | Some (SText s) =>
                let b := mk_base (Assigned false) (error_msg b) in
                let* raw := of_option BinasciiError (b64decode s) in
                let* entries := of_option BadZipFile (zip_filelist raw) in
                let* docs := read_documents entries in
                Ok (b, docs, Some (update_attr v "Report" (fun rp => delattr rp "Documents")))
            | _ => Ok (b, [], r)
            end
        | None => Ok (b, [], r)
        end
    | None => Ok (b, [], r)
    end in
  let b := if negb (hasattr r' "Export") && negb (hasattr r' "Report")
           then mk_base (Assigned true) (Assigned (py_repr r'))
           else b in
  Ok (mk_export b r' docs).

(** [ImportMessage(time=..., status=..., message=..., row=...)] with its
    [__post_init__]. *)
Definition make_message (tm status value : sval) (row : Z) : res (ImportMessage time_t) :=
  match tm with
  | SText s => let* t := of_option ValueError (fromisoformat s) in
               Ok (mk_message time_t t status value row)
  | _ => Err TypeError
  end.

(** The message loop of [ImportResult.from_suds]; its state is
    [(row, total_rows, elapsed_time)] and the list built so far. *)
Fixpoint import_messages (ms : list sval) (row : Z) (tr el : option Z)
    (acc : list (ImportMessage time_t))
    : res (list (ImportMessage time_t) * option Z * option Z) :=
  match ms with
  | [] => Ok (acc, tr, el)
  | msg :: t =>
      let* result := getattr msg "_Result" in
      let* '(row, tr, el) :=
        if eq_str result "Progress" then
          let* value := getattr msg "value" in
          if py_in "Processing row :" value then
            let* n := int_from 17 value in Ok (n, tr, el)
          else if py_in "Total rows imported:" value then
            let* n := int_from 21 value in Ok (row, Some n, el)
          else if py_in "Total time (ms):" value then
            let* n := int_from 17 value in
            let* d := timedelta_ms n in Ok (row, tr, Some d)
          else Ok (row, tr, el)
        else Ok (row, tr, el) in
      let* tm := getattr msg "_Time" in
      let* value := getattr msg "value" in
      let* m := make_message tm result value row in
      import_messages t row tr el (acc ++ [m])
  end.

(** The element loop: [for elem in suds_response.Import.Elements[0]]. *)
Definition import_elements (es : list sval) : res (list ImportElement) :=
  res_fold (fun acc elem =>
      let* a := getattr elem "_Action" in
      let* i := getattr elem "_ID" in
      let* fk := getattr elem "_ForeignKey" in
      Ok (acc ++ [mk_element a i fk])) [] es.

(** [ImportResult.from_suds]. *)
Definition import_from_suds (r : option sval) : res (ImportResult time_t) :=
  let* b := handle_suds_response_errors r base0 in
  let* '(b, msgs, els, tr, el) :=
    match r with
    | Some v =>
        match sattr v "Import" with
        | Some imp =>
            let b := mk_base (Assigned false) (error_msg b) in
            let* '(msgs, tr, el) :=
              match sattr imp "Message" with
              | Some mv => import_messages (py_iter mv) 0 None None []
              | None => Ok ([], None, None)
              end in
            let* els :=
              match sattr imp "Elements" with
              | Some ev =>
                  if (0 <? py_len ev)%nat
                  then let* g := py_index0 ev in import_elements (py_iter g)
                  else Ok []
              | None => Ok []
              end in
            Ok (b, msgs, els, tr, el)
        | None => Ok (b, [], [], None, None)
        end
    | None => Ok (b, [], [], None, None)
    end in
  let b := if negb (hasattr r "Export") && negb (hasattr r "Import")
           then mk_base (Assigned true) (Assigned (py_repr r))
           else b in
  Ok (mk_import time_t b msgs els tr el).

End Library.

End Results.

(* ------------------------------------------------------------------ *)
(** ** pyrelatics_webservices/client.py *)

Module Client.

(** POSIX [os.path] on str paths. *)
Module Path.

Definition slash : ascii := "/".
Definition dot : ascii := ".".

Fixpoint take_until_slash (rcs : list ascii) : list ascii :=
  match rcs with
  | [] => []
  | c :: t => if Ascii.eqb c slash then [] else c :: take_until_slash t
  end.

(** [os.path.split(p)[1]]: what follows the last "/". *)
Definition tail (p : string) : string :=
  string_of_list_ascii (rev (take_until_slash (rev (list_ascii_of_string p)))).

(** Position of the last "." of a list of characters. *)
Fixpoint last_dot_go (cs : list ascii) (i : nat) (found : option nat) : option nat :=
  match cs with
  | [] => found
  | c :: t => last_dot_go t (S i) (if Ascii.eqb c dot then Some i else found)
  end.

(** [os.path.splitext(p)]: the extension is the last "." of the file name
    and what follows, unless only dots precede it in the file name. *)
Definition splitext (p : string) : string * string :=
  let cs := list_ascii_of_string p in
  let tl := rev (take_until_slash (rev cs)) in
  let hd := firstn (length cs - length tl) cs in
  match last_dot_go tl 0 None with
  | Some i =>
      if existsb (fun c => negb (Ascii.eqb c dot)) (firstn i tl)
      then (string_of_list_ascii (hd ++ firstn i tl), string_of_list_ascii (skipn i tl))
      else (p, ""%string)
  | None => (p, ""%string)
  end.

(** [os.path.join(a, b)] *)
Definition join (a b : string) : string :=
  if String.prefix "/" b then b
  else match rev (list_ascii_of_string a) with
       | [] => b
       | c :: _ => if Ascii.eqb c slash then (a ++ b)%string else (a ++ "/" ++ b)%string
       end.

End Path.

Definition TOKEN_PATH := "/oauth2/token"%string.
Definition USER_AGENT := "Python-pyrelatics_webservice/0.0.0"%string.
Definition IMPORT_BASENAME := "pyrelatics_webservice"%string.
Definition SUPPORTED_EXTENSIONS := ["xlsx"; "xlsm"; "xlsb"; "xls"; "csv"]%string.

(** Values of the decoded JSON token response. *)
Inductive json :=
  | JStr (s : string)
  | JInt (n : Z)
  | JOther.

(** [datetime] values as microseconds since 0001-01-01T00:00, and the
    range check of [datetime + timedelta]. *)
Definition DATETIME_END : Z := 3652059 * 86400000000.

Definition dt_add (t d : Z) : res Z :=
  if (0 <=? t + d) && (t + d <? DATETIME_END) then Ok (t + d) else Err OverflowError.

(** [timedelta.seconds]: the seconds component of the normalised
    (days, seconds, microseconds) triple, in [0, 86400). *)
Definition td_seconds (d : Z) : Z := (d mod 86400000000) / 1000000.

(** [timedelta(seconds=n)] in microseconds, with its range check. *)
Definition timedelta_s (v : json) : res Z :=
  match v with
  | JInt n => if (- 999999999 * 86400 <=? n) && (n <? 1000000000 * 86400)
              then Ok (n * 1000000) else Err OverflowError
  | _ => Err TypeError
  end.

Record token_entry := mk_entry { token : json; expires_on : Z }.

Record ClientCredential := mk_cred {
  client_id : string;
  client_secret : string;
  tokens : gmap string token_entry }.

(** Network requests, in the order the code issues them. *)
Inductive event :=
  | TokenPost (host path credentials user_agent : string)
  | WsdlFetch (url : string)
  | SoapImport (operation filename data : string) (auth : option string) (bearer : option json).

(** The mutable state: the credential object, the files on disk, and the
    requests sent so far. *)
Record world := mk_world {
  cred : ClientCredential;
  fs : gmap string string;
  trace : list event }.

(** What the outside world answers: the clock, the token endpoint of each
    host (transport or JSON errors as [Err]), the WSDL download, the
    temporary directory and the [Import] call. *)
Record env := mk_env {
  now : Z;
  token_reply : string -> res (gmap string json);
  wsdl_reply : res unit;
  tmpdir : string;
  import_reply : res (option sval) }.

Definition M (A : Type) := env -> world -> world * res A.

Definition mret {A} (a : A) : M A := fun _ w => (w, Ok a).
Definition mbind {A B} (m : M A) (k : A -> M B) : M B :=
  fun e w => match m e w with
             | (w', Ok a) => k a e w'
             | (w', Err x) => (w', Err x)
             end.
Definition raise {A} (x : exc) : M A := fun _ w => (w, Err x).
Definition lift {A} (r : res A) : M A := fun _ w => (w, r).
Definition ask {A} (f : env -> A) : M A := fun e w => (w, Ok (f e)).
Definition gets {A} (f : world -> A) : M A := fun _ w => (w, Ok (f w)).
Definition modify (f : world -> world) : M unit := fun _ w => (f w, Ok tt).
Definition emit (ev : event) : M unit :=
  modify (fun w => mk_world (cred w) (fs w) (trace w ++ [ev])).

Notation "'let!' x := m 'in' k" := (mbind m (fun x => k))
  (at level 200, x name, m at level 100, k at level 200).
Notation "'let!' ' p := m 'in' k" := (mbind m (fun x => match x with p => k end))
  (at level 200, p pattern, m at level 100, k at level 200).

Definition set_tokens (t : gmap string token_entry) (w : world) : world :=
  mk_world (mk_cred (client_id (cred w)) (client_secret (cred w)) t) (fs w) (trace w).

(** [ClientCredential.retrieve_token] *)
Definition retrieve_token (hostname user_agent : string) : M unit :=
  let! requested_on := ask now in
  let! cc := gets cred in
  let! _ := emit (TokenPost hostname TOKEN_PATH
                   (client_id cc ++ ":" ++ client_secret cc) user_agent) in
  let! response := let! f := ask token_reply in lift (f hostname) in
  match response !! "error"%string, response !! "access_token"%string with
  | Some _, _ =>
      (* RuntimeError, or KeyError on a missing error_description *)
      match response !! "error_description"%string with
      | Some _ => raise RuntimeError
      | None => raise KeyError
      end
  | None, None => raise KeyError
  | None, Some tok =>
      let! ei := lift (of_option KeyError (response !! "expires_in"%string)) in
      let! d := lift (timedelta_s ei) in
      let! exp := lift (dt_add requested_on d) in
      let! cc := gets cred in
      modify (set_tokens (<[hostname := mk_entry tok exp]> (tokens cc)))
  end.

(** [ClientCredential.get_token] *)
Definition get_token (hostname : string) (force_refresh : bool) (user_agent : string)
    : M json :=
  let! cc := gets cred in
  let! t := ask now in
  let! _ :=
    if force_refresh
       || match tokens cc !! hostname with
          | None => true
          | Some ent => td_seconds (expires_on ent - t) <=? 300
          end
    then retrieve_token hostname user_agent
    else mret tt in
  let! cc := gets cred in
  match tokens cc !! hostname with
  | Some ent => mret (token ent)
  | None => raise KeyError
  end.

(** The [data] argument of [run_import]: a list of row dicts, a str path,
    or any other object (with its truthiness). *)
Inductive import_data :=
  | DRows (rows : list (list (string * string)))
  | DPath (path : string)
  | DOther (truthy : bool).

Definition data_truthy (d : import_data) : bool :=
  match d with
  | DRows rows => negb (bool_decide (rows = []))
  | DPath p => negb (String.eqb p "")
  | DOther b => b
  end.

(** The [authentication] argument: None (or any other object), an
    entry code, or the credential object of the world. *)
Inductive authentication := AuthNone | AuthEntrycode (code : string) | AuthCred.

Record webservices := mk_ws { ws_hostname : string; ws_workspace_id : string; ws_user_agent : string }.

(** [RelaticsWebservices.__init__] for an ASCII company name. *)
Definition ws_init (company_name workspace_id user_agent : string) : webservices :=
  mk_ws (string_of_list_ascii (map (fun c => Ascii.ascii_of_nat
            (let n := nat_of_ascii c in if (65 <=? n)%nat && (n <=? 90)%nat then (n + 32)%nat else n))
           (list_ascii_of_string company_name)) ++ ".relaticsonline.com")%string
        workspace_id user_agent.

Definition wsdl_url (ws : webservices) : string :=
  ("https://" ++ ws_hostname ws ++ "/DataExchange.asmx?wsdl")%string.

Definition read_file (p : string) : M string :=
  let! f := gets fs in lift (of_option FileNotFoundError (f !! p)).

Definition write_file (p c : string) : M unit :=
  modify (fun w => mk_world (cred w) (<[p := c]> (fs w)) (trace w)).

(** [os.remove] *)
Definition remove_file (p : string) : M unit :=
  let! f := gets fs in
  match f !! p with
  | Some _ => modify (fun w => mk_world (cred w) (delete p (fs w)) (trace w))
  | None => raise FileNotFoundError
  end.

(** [suds.client.Client(url)]: downloads the WSDL. *)
Definition new_client (url : string) : M unit :=
  let! _ := emit (WsdlFetch url) in
  let! r := ask wsdl_reply in lift r.

Section Payload.

(** [doc.str()] of the generated [<Import><Row .../>...</Import>] document. *)
Variable xml_str : list (list (string * string)) -> string.
(** The bytes of a zip archive with the given members, as [ZipFile]
    leaves them on disk. *)
Variable zip_bytes : list (string * string) -> string.
(** [base64.b64encode(b).decode("utf-8")] *)
Variable b64encode : string -> string.

(** "Prepare the data part": the extension, or the validation error. *)
Definition data_extension (data : import_data) : res string :=
  match data with
  | DRows _ => Ok "xml"%string
  | DPath p =>
      let file_extension := PyStr.drop 1 (Path.splitext p).2 in
      if existsb (String.eqb file_extension) SUPPORTED_EXTENSIONS
      then Ok file_extension else Err TypeError
  | DOther _ => Err TypeError
  end.

Definition file_basename (file_name : option string) : string :=
  match file_name with
  | None => IMPORT_BASENAME
  | Some n => (Path.splitext (Path.tail n)).1
  end.

(** One [import_zip.write] / [writestr]: the member is added and the
    archive on disk is updated. *)
Definition zip_add (zip_path : string) (entries : list (string * string))
    (arcname content : string) : M (list (string * string)) :=
  let entries := entries ++ [(arcname, content)] in
  let! _ := write_file zip_path (zip_bytes entries) in
  mret entries.

Fixpoint zip_documents (zip_path : string) (entries : list (string * string))
    (documents : list string) : M (list (string * string)) :=
  match documents with
  | [] => mret entries
  | document_path :: t =>
      let archive_name := Path.join "Documents" (Path.tail document_path) in
      let! content := read_file document_path in
      let! entries := zip_add zip_path entries archive_name content in
      zip_documents zip_path entries t
  end.

(** The [if documents is not None:] branch: build the zip in the
    temporary directory, encode it, remove it. [keep_zip_file] only
    decides about [del import_zip], a local name. *)
Definition encode_with_documents (basename ext : string) (data : import_data)
    (documents : list string) (keep_zip_file : bool) : M (string * string) :=
  let! tmp := ask tmpdir in
  let import_zip_path := Path.join tmp (basename ++ ".zip") in
  let! _ := write_file import_zip_path (zip_bytes []) in
  let! entries := zip_documents import_zip_path [] documents in
  let! _ :=
    match data with
    | DRows rows => zip_add import_zip_path entries (basename ++ "." ++ ext) (xml_str rows)
    | DPath p =>
        let! content := read_file p in
        zip_add import_zip_path entries (Path.tail p) content
    | DOther _ => mret entries
    end in
  let! zipped := read_file import_zip_path in
  let data_str := b64encode zipped in
  let! _ := remove_file import_zip_path in
  mret (data_str, "zip"%string).

(** The [else] branch: the XML or the file itself. *)
Definition encode_without_documents (ext : string) (data : import_data) : M (string * string) :=
  match data with
  | DRows rows => mret (b64encode (xml_str rows), ext)
  | DPath p => let! content := read_file p in mret (b64encode content, ext)
  | DOther _ => raise ValueError (* unreachable: rejected above *)
  end.

(** [RelaticsWebservices.run_import] *)
Definition run_import (ws : webservices) (operation_name : string) (data : import_data)
    (auth : authentication) (file_name : option string) (documents : option (list string))
    (keep_zip_file : bool) : M (option sval) :=
  if String.eqb operation_name "" then raise ValueError else
  if negb (data_truthy data) then raise ValueError else
  let! _ := new_client (wsdl_url ws) in
  let! ext := lift (data_extension data) in
  let basename := file_basename file_name in
  let! '(data_str, ext) :=
    match documents with
    | Some docs => encode_with_documents basename ext data docs keep_zip_file
    | None => encode_without_documents ext data
    end in
  let entrycode := match auth with AuthEntrycode c => Some c | _ => None end in
  let! bearer :=
    match auth with
    | AuthCred => let! t := get_token (ws_hostname ws) false USER_AGENT in mret (Some t)
    | _ => mret None
    end in
  let! _ := emit (SoapImport operation_name (basename ++ "." ++ ext) data_str entrycode bearer) in
  let! r := ask import_reply in lift r.

End Payload.

End Client.

(* ------------------------------------------------------------------ *)
(** ** result_classes.py: the message and element views and [__str__] *)

Module Render.
Import Results.

(** [ImportResult.filter_messages] and the status properties built on it. *)
Definition filter_messages {T} (r : ImportResult T) (status_ : string) : list (ImportMessage T) :=
  List.filter (fun m => eq_str (status m) status_) (messages r).

Definition progress_messages {T} (r : ImportResult T) := filter_messages r "Progress".
Definition comment_messages {T} (r : ImportResult T) := filter_messages r "Comment".
Definition success_messages {T} (r : ImportResult T) := filter_messages r "Success".
Definition warning_messages {T} (r : ImportResult T) := filter_messages r "Warning".
Definition error_messages {T} (r : ImportResult T) := filter_messages r "Error".

(** [ImportResult.filter_elements] and the action properties built on it. *)
Definition filter_elements {T} (r : ImportResult T) (action_ : string) : list ImportElement :=
  List.filter (fun el => eq_str (action el) action_) (elements r).

Definition added_elements {T} (r : ImportResult T) := filter_elements r "Add".
Definition updated_elements {T} (r : ImportResult T) := filter_elements r "Update".

Definition char (n : nat) : string := String (Ascii.ascii_of_nat n) EmptyString.
Definition NL : string := char 10.

(** colorama's ANSI sequences. *)
Definition ESC : string := char 27.
Definition Fore_BLUE := (ESC ++ "[34m")%string.
Definition Fore_GREEN := (ESC ++ "[32m")%string.
Definition Fore_YELLOW := (ESC ++ "[33m")%string.
Definition Fore_RED := (ESC ++ "[31m")%string.
Definition Fore_RESET := (ESC ++ "[39m")%string.
Definition Style_BRIGHT := (ESC ++ "[1m")%string.
Definition Style_RESET_ALL := (ESC ++ "[0m")%string.

(** Decimal digits of a non-negative integer; [fuel] bounds their number. *)
Fixpoint dec_go (fuel : nat) (n : Z) (acc : list ascii) : list ascii :=
  match fuel with
  | O => acc
  | S f =>
      let acc := Ascii.ascii_of_nat (48 + Z.to_nat (n mod 10)) :: acc in
      if n <? 10 then acc else dec_go f (n / 10) acc
  end.

Definition dec (n : Z) : list ascii := dec_go (S (Z.to_nat (Z.log2 n))) n [].

(** [str(n)] for an int. *)
Definition int_str (n : Z) : string :=
  string_of_list_ascii (if n <? 0 then "-"%char :: dec (- n) else dec n).

(** [format(n, "0w")]: the sign, then zeros up to width [w]. *)
Definition zero_pad (w : nat) (n : Z) : string :=
  let ds := dec (Z.abs n) in
  if n <? 0 then string_of_list_ascii ("-"%char :: repeat "0"%char (w - 1 - length ds) ++ ds)
  else string_of_list_ascii (repeat "0"%char (w - length ds) ++ ds).

(** [format(s, "<w")] and [format(s, "w")] on a str (left aligned), and
    [format(n, ">w")] on an int (right aligned), for ASCII text. *)
Definition ljust (s : string) (w : nat) : string :=
  (s ++ string_of_list_ascii (repeat " "%char (w - String.length s)))%string.
Definition rjust (s : string) (w : nat) : string :=
  (string_of_list_ascii (repeat " "%char (w - String.length s)) ++ s)%string.

(** [str(timedelta(milliseconds=n))]. *)
Definition timedelta_str (n : Z) : string :=
  let days := n / 86400000 in
  let r := n mod 86400000 in
  let seconds := r / 1000 in
  let microseconds := (r mod 1000) * 1000 in
  let mm := seconds / 60 in
  let ss := seconds mod 60 in
  let hh := mm / 60 in
  let mm := mm mod 60 in
  let s := (int_str hh ++ ":" ++ zero_pad 2 mm ++ ":" ++ zero_pad 2 ss)%string in
  let s := if days =? 0 then s
           else (int_str days ++ " day" ++ (if Z.eqb (Z.abs days) 1 then "" else "s") ++ ", " ++ s)%string in
  if microseconds =? 0 then s else (s ++ "." ++ zero_pad 6 microseconds)%string.

(** [ImportMessage.status_fore_color] *)
Definition status_fore_color : list (string * string) :=
  [("Progress", Fore_BLUE); ("Comment", Fore_RESET); ("Success", Fore_GREEN);
   ("Warning", Fore_YELLOW); ("Error", Fore_RED)]%string.

Definition known_status (v : sval) : bool :=
  match v with
  | SText s => if assoc s status_fore_color then true else false
  | _ => false
  end.

Section Str.

Variable time_t : Type.
(** [str()] of a [datetime.time]. *)
Variable time_str : time_t -> string.
(** suds' [str] of a non-text object. *)
Variable suds_str : sval -> string.
(** [str()] of the [dataclasses.Field] class attribute. *)
Variable field_str : string.

(** [ImportMessage.__str__]. The dict lookup comes first: a status that is
    no key raises KeyError (a suds Object hashes by identity and equals no
    str), a list status TypeError (unhashable type). *)
Definition message_str (m : ImportMessage time_t) : res string :=
  let* status_color :=
    match status m with
    | SText s => of_option KeyError (assoc s status_fore_color)
    | SObj _ => Err KeyError
    | SList _ => Err TypeError
    end in
  match status m with
  | SText s =>
      Ok (time_str (time m) ++ "  " ++ zero_pad 5 (row m) ++ "  " ++ status_color ++
          ljust s 8 ++ Fore_RESET ++ "  " ++ py_str suds_str (message m))%string
  | _ => Err TypeError
  end.

(** [ImportElement.__str__]: [format(obj, "<6")] of a non-str raises
    TypeError. *)
Definition element_str (el : ImportElement) : res string :=
  match action el with
  | SText a =>
      Ok (ljust a 6 ++ "  " ++ py_str suds_str (id el) ++ "  " ++ py_str suds_str (foreign_key el))%string
  | _ => Err TypeError
  end.

Definition slot_str (s : slot string) : string :=
  match s with Assigned m => m | ClassField => field_str end.

(** [for x in xs: result += f"{x.__str__()} \n"] *)
Definition render_lines {A} (f : A -> res string) (acc : string) (xs : list A) : res string :=
  res_fold (fun acc x => let* s := f x in Ok (acc ++ s ++ " " ++ NL)%string) acc xs.

(** [ImportResult.__str__] *)
Definition import_result_str (r : ImportResult time_t) : res string :=
  let result := ""%string in
  let result := if truthy (has_error (im_base r))
                then (result ++ "ERROR: " ++ slot_str (error_msg (im_base r)) ++ NL)%string
                else result in
  let result := match total_rows r with
                | Some n => (result ++ "Rows imported : " ++ int_str n ++ NL)%string
                | None => result
                end in
  let result := match elapsed_time r with
                | Some d => (result ++ "Elapsed time  : " ++ timedelta_str d ++ " (h:mm:ss.mmmmmm)" ++ NL)%string
                | None => result
                end in
  let* result := match messages r with
                 | [] => Ok result
                 | ms => render_lines message_str
                           (result ++ "[Messages]: " ++ NL ++ Style_BRIGHT ++
                            "Time      Row    Status    Message" ++ NL ++ Style_RESET_ALL)%string ms
                 end in
  match elements r with
  | [] => Ok result
  | es => render_lines element_str
            (result ++ "[Elements]: " ++ NL ++ Style_BRIGHT ++
             "Action  ID                                    Foreign key" ++ NL ++ Style_RESET_ALL)%string es
  end.

End Str.

End Render.

(* ------------------------------------------------------------------ *)
(** ** suds.sax elements and [AddParametersPlugin.marshalled] *)

Module Sax.

(** A [suds.sax.element.Element]: prefix, local name, [nsprefixes]
    (in insertion order), attributes and children. The parent of an
    element is the element whose children hold it. *)
#[warnings="-register-all"]
Inductive element :=
  | El (prefix : option string) (name : string) (nsprefixes : list (string * string))
       (attributes : list (string * string)) (children : list element).

Definition el_prefix (e : element) := match e with El p _ _ _ _ => p end.
Definition el_name (e : element) := match e with El _ n _ _ _ => n end.
Definition el_ns (e : element) := match e with El _ _ ns _ _ => ns end.
Definition el_attrs (e : element) := match e with El _ _ _ a _ => a end.
Definition el_children (e : element) := match e with El _ _ _ _ c => c end.

Definition with_children (e : element) (cs : list element) : element :=
  match e with El p n ns a _ => El p n ns a cs end.

(** [Element(name)] for a name without prefix. *)
Definition new_element (name : string) : element := El None name [] [] [].

(** [e.getChild(name)]: the first child of that local name. *)
Definition get_child (name : string) (e : element) : option element :=
  List.find (fun c => String.eqb (el_name c) name) (el_children e).

(** [e[0]]: the first child, [None] when there is none. *)
Definition child0 (e : element) : option element := hd_error (el_children e).

(** [e.append(child)] *)
Definition append (e c : element) : element := with_children e (el_children e ++ [c]).

(** [e.setPrefix(p)] *)
Definition set_prefix (p : option string) (e : element) : element :=
  match e with El _ n ns a c => El p n ns a c end.

(** [e.set(name, value)]: changes the attribute of that name, or appends it. *)
Fixpoint set_attr (k v : string) (attrs : list (string * string)) : list (string * string) :=
  match attrs with
  | [] => [(k, v)]
  | (k', v') :: t => if String.eqb k k' then (k', v) :: t else (k', v') :: set_attr k v t
  end.

Definition el_set (k v : string) (e : element) : element :=
  match e with El p n ns a c => El p n ns (set_attr k v a) c end.

(** The first child of that name, changed by [f]. *)
Fixpoint update_named (name : string) (f : element -> element) (cs : list element) : list element :=
  match cs with
  | [] => []
  | c :: t => if String.eqb (el_name c) name then f c :: t else c :: update_named name f t
  end.

Definition update_child (name : string) (f : element -> element) (e : element) : element :=
  with_children e (update_named name f (el_children e)).

Definition update_child0 (f : element -> element) (e : element) : element :=
  match el_children e with
  | c :: t => with_children e (f c :: t)
  | [] => e
  end.

Definition XML_NS := "http://www.w3.org/XML/1998/namespace"%string.

(** [e.findPrefix(uri)] along [e] and its ancestors (nearest first):
    [nsprefixes], then the special [xml] prefix, then the parent. *)
Fixpoint find_prefix (chain : list element) (uri : string) : option string :=
  match chain with
  | [] => None
  | e :: up =>
      match List.find (fun pu => String.eqb pu.2 uri) (el_ns e) with
      | Some pu => Some pu.1
      | None => if String.eqb uri XML_NS then Some "xml"%string else find_prefix up uri
      end
  end.

Definition RELATICS_NS := "http://www.relatics.com/"%string.

(** [context.envelope.getChild("Body")[0].getChild("Parameters")[0]]:
    [None[0]] raises TypeError, [None.getChild] AttributeError; the
    result may be [None]. Returned with its ancestors. *)
Definition lookup_params (envelope : element) : res (option (element * list element)) :=
  match get_child "Body" envelope with
  | None => Err TypeError
  | Some body =>
      match child0 body with
      | None => Err AttributeError
      | Some root =>
          match get_child "Parameters" root with
          | None => Err TypeError
          | Some ps => Ok (option_map (fun p => (p, [ps; root; body; envelope])) (child0 ps))
          end
      end
  end.

(** The element [lookup_params] finds, changed by [f] in place. *)
Definition update_params (f : element -> element) : element -> element :=
  update_child "Body" (update_child0 (update_child "Parameters" (update_child0 f))).

(** One iteration of [for param_name, param_value in self.parameters.items()]. *)
Definition add_parameter (prefix : option string) (params : element) (kv : string * string) : element :=
  let elem := set_prefix prefix (new_element "Parameter") in
  let elem := el_set "Name" kv.1 elem in
  let elem := el_set "Value" kv.2 elem in
  append params elem.

(** [AddParametersPlugin.marshalled] on [context.envelope], with the
    parameters dict as its items in order. *)
Definition marshalled (parameters : option (list (string * string))) (envelope : element)
    : res element :=
  match parameters with
  | None => Ok envelope
  | Some items =>
      let* '(envelope, params) :=
        match lookup_params envelope with
        | Ok p => Ok (envelope, p)
        | Err TypeError =>
            match get_child "Body" envelope with
            | None => Err TypeError
            | Some body =>
                match child0 body with
                | None => Err AttributeError
                | Some root =>
                    let root_prefix := find_prefix [root; body; envelope] RELATICS_NS in
                    let p_1 := set_prefix root_prefix (new_element "Parameters") in
                    let p_2 := set_prefix root_prefix (new_element "Parameters") in
                    let p_1 := append p_1 p_2 in
                    let envelope := update_child "Body" (update_child0 (fun r => append r p_1)) envelope in
                    let* p := lookup_params envelope in Ok (envelope, p)
                end
            end
        | Err x => Err x
        end in
      match params with
      | None => Err AttributeError
      | Some (p, ancestors) =>
          let prefix := find_prefix (p :: ancestors) RELATICS_NS in
          Ok (update_params (fun p => fold_left (add_parameter prefix) items p) envelope)
      end
  end.

End Sax.

(* ------------------------------------------------------------------ *)
(** ** client.py: [RelaticsWebservices.get_result] *)

Module GetResult.
Import Client.

(** What [client.service.GetResult(...)] sends: the operation, the
    workspace of [self.identification], the [Entrycode] of the
    [Authentication] argument, the [User-Agent] and bearer headers, and the
    parameters handed to the [AddParametersPlugin] ([Parameters=None] is
    passed to the call itself). *)
Record getresult_call := mk_call {
  call_operation : string;
  call_workspace : string;
  call_entrycode : option string;
  call_user_agent : string;
  call_bearer : option json;
  call_plugin_parameters : option (list (string * string)) }.

Section Service.

(** The SOAP [GetResult] call. *)
Variable get_result_service : getresult_call -> res (option sval).

(** [RelaticsWebservices.get_result] *)
Definition get_result (ws : webservices) (operation_name : string)
    (parameters : option (list (string * string))) (auth : authentication) : M (option sval) :=
  let! _ := new_client (wsdl_url ws) in
  let entrycode := match auth with AuthEntrycode c => Some c | _ => None end in
  let! bearer :=
    match auth with
    | AuthCred => let! t := get_token (ws_hostname ws) false USER_AGENT in mret (Some t)
    | _ => mret None
    end in
  lift (get_result_service
          (mk_call operation_name (ws_workspace_id ws) entrycode (ws_user_agent ws) bearer parameters)).

End Service.

End GetResult.


(* ------------------------------------------------------------------ *)
(** * Test inputs *)

Module Fixtures.
Import Results Client.

(** A [Message] element of an Import response. *)
Definition message_node (res_ text tm : string) : sval :=
  SObj [("value", SText text); ("_Time", SText tm); ("_Result", SText res_)].

(** The Import response of the spec's example. *)
Definition progress_then_success (t1 t2 : string) : option sval :=
  Some (SObj [("Import", SObj [("Message", SList
    [message_node "Progress" "Processing row : 00001" t1;
     message_node "Success" "ok" t2])])]).

Definition hello : bytes := list_byte_of_string "hello".

Definition sample_report : sval :=
  SObj [("Report", SObj [("Documents", SText "UEsDBA==")])].

(** What a step may change of the credential: only the entry of [h]. *)
Definition cred_frame (h : string) (w w' : world) : Prop :=
  client_id (cred w') = client_id (cred w) /\
  client_secret (cred w') = client_secret (cred w) /\
  forall k, k <> h -> tokens (cred w') !! k = tokens (cred w) !! k.

Definition creds0 : ClientCredential := mk_cred "id" "secret" ∅.
Definition world0 : world := mk_world creds0 ∅ [].

Definition token_request (w : world) (h ua : string) : event :=
  TokenPost h TOKEN_PATH (client_id (cred w) ++ ":" ++ client_secret (cred w)) ua.

(** A token endpoint answering [access_token = "tok"] and the given
    [expires_in]. *)
Definition token_env (t : Z) (E : Z) : env :=
  mk_env t (fun _ => Ok (<["access_token"%string := JStr "tok"]>
                         (<["expires_in"%string := JInt E]> ∅)))
         (Ok tt) "/tmp" (Ok None).

Definition T0 : Z := 63900000000000000.

Definition acme : webservices := ws_init "Acme" "workspace-1" USER_AGENT.

Definition import_env : env :=
  mk_env T0 (fun _ => Err RuntimeError) (Ok tt) "/tmp" (Ok None).

Definition temp_zip_path (e : env) (file_name : option string) : string :=
  Path.join (tmpdir e) (file_basename file_name ++ ".zip").

Definition drawing_world : world :=
  mk_world creds0 (<["/home/user/drawing.pdf"%string := "%PDF"%string]> ∅) [].

Definition rows1 : import_data := DRows [[("name"%string, "Object 1"%string)]].

Definition xml0 (rows : list (list (string * string))) : string := "<Import/>".
Definition zip0 (entries : list (string * string)) : string := "PK".
Definition b640 (b : string) : string := b.

(** An ImportResult with one message of each of two statuses and one
    element of each action. *)
Definition import_sample : ImportResult unit :=
  mk_import unit base0
    [mk_message unit tt (SText "Progress") (SText "Processing row : 00001") 1;
     mk_message unit tt (SText "Error") (SText "Unknown column") 1]
    [mk_element (SText "Add") (SText "4a1b") (SText "K-1");
     mk_element (SText "Update") (SText "77c0") (SText "K-2")] None None.

End Fixtures.

(* ------------------------------------------------------------------ *)
(** * Predicates used by the statements below *)

Module Props.
Import Results.

(** A message is a row counter: a Progress message whose text contains
    ["Processing row :"]. *)
Definition counter {T} (m : ImportMessage T) : bool :=
  eq_str (status m) "Progress" && py_in "Processing row :" (message m).

(** The row of each message: a row counter carries the integer of its own
    text after the 17th character, any other message the row of the
    message before it ([r0] for the first). *)
Fixpoint rows_follow {T} (r0 : Z) (ms : list (ImportMessage T)) : Prop :=
  match ms with
  | [] => True
  | m :: t =>
      (if counter m then int_from 17 (message m) = Ok (row m) else row m = r0) /\
      rows_follow (row m) t
  end.

(** A [Message] node and the [ImportMessage] made of it. *)
Definition message_of {T} (fromiso : string -> option T) (msg : sval) (m : ImportMessage T) : Prop :=
  sattr msg "_Result" = Some (status m) /\ sattr msg "value" = Some (message m) /\
  exists s, sattr msg "_Time" = Some (SText s) /\ fromiso s = Some (time m).

(** An element node and the [ImportElement] made of it. *)
Definition element_of (elem : sval) (el : ImportElement) : Prop :=
  sattr elem "_Action" = Some (action el) /\ sattr elem "_ID" = Some (id el) /\
  sattr elem "_ForeignKey" = Some (foreign_key el).

(** A step of the client that touches neither the credential object nor
    the network: at most the files. *)
Definition keeps_cred_trace {A} (m : Client.M A) : Prop :=
  forall e w, Client.cred (m e w).1 = Client.cred w /\ Client.trace (m e w).1 = Client.trace w.

(** The [Parameter] element [marshalled] adds for one item of the
    parameters dict, with the given prefix. *)
Definition param_elem (pr : option string) (kv : string * string) : Sax.element :=
  Sax.El pr "Parameter" [] [("Name"%string, kv.1); ("Value"%string, kv.2)] [].

End Props.

Module Fixtures2.
Import Results Fixtures.

Definition element_node (a i fk : string) : sval :=
  SObj [("_Action", SText a); ("_ID", SText i); ("_ForeignKey", SText fk)].

(** The Import of a response with two messages and two groups of
    elements. *)
Definition import_node : sval :=
  SObj [("Message", SList [message_node "Progress" "Processing row : 00001" "10:00:00";
                           message_node "Success" "ok" "10:00:01"]);
        ("Elements", SList [SList [element_node "Add" "4a1b" "K-1"; element_node "Update" "77c0" "K-2"];
                            SList [element_node "Add" "9f9f" "K-3"]])].

Definition import_response : sval := SObj [("Import", import_node)].

(** A row counter whose text has no integer after the 17th character. *)
Definition bad_counter : sval := message_node "Progress" "Processing row : 12a" "10:00:02".

Definition bad_import_node : sval :=
  SObj [("Message", SList [message_node "Progress" "Processing row : 00001" "10:00:00";
                           bad_counter; message_node "Success" "ok" "10:00:03"])].

Definition bad_import_response : sval := SObj [("Import", bad_import_node)].

Definition report_node : sval := SObj [("Documents", SText "UEsDBA==")].
Definition report_response : sval := SObj [("Report", report_node)].

(** A zip listing with two members named [a.txt]. *)
Definition two_a_members : list (string * bytes) :=
  [("a.txt"%string, list_byte_of_string "old"); ("b.txt"%string, hello);
   ("a.txt"%string, list_byte_of_string "new")].

Definition no_str (_ : sval) : string := "".

End Fixtures2.

Module Fixtures3.
Import Client Fixtures GetResult.

Definition acme_host : string := "acme.relaticsonline.com".

(** A token endpoint refusing the client credentials. *)
Definition refusal : gmap string json :=
  <["error"%string := JStr "invalid_client"]>
    (<["error_description"%string := JStr "bad secret"]> ∅).

Definition refusing_env : env := mk_env T0 (fun _ => Ok refusal) (Ok tt) "/tmp" (Ok None).

(** A world whose cache holds a token for [acme_host] valid for another
    hour. *)
Definition cached_world : world :=
  mk_world (mk_cred "id" "secret" {[ acme_host := mk_entry (JStr "old") (T0 + 3600000000) ]}) ∅ [].

(** A [GetResult] service answering with the operation it was asked for. *)
Definition echo_service (c : getresult_call) : res (option sval) :=
  Ok (Some (SText (call_operation c))).

(** An archive format listing its member names and contents. *)
Definition zip_listing (entries : list (string * string)) : string :=
  String.concat ";" (map (fun nc => (nc.1 ++ "=" ++ nc.2)%string) entries).

(** A SOAP envelope of a [GetResult] request without [Parameters], one
    with a [Parameters] element already holding a parameter, and one
    without a body. *)
Definition getresult_root (extra : list Sax.element) : Sax.element :=
  Sax.El (Some "ns0"%string) "GetResult" [] []
    ([Sax.El (Some "ns0"%string) "Operation" [] [] []] ++ extra).

Definition soap_body (extra : list Sax.element) : Sax.element :=
  Sax.El (Some "SOAP-ENV"%string) "Body" [] [] [getresult_root extra].

Definition soap_envelope (extra : list Sax.element) : Sax.element :=
  Sax.El (Some "SOAP-ENV"%string) "Envelope"
    [("SOAP-ENV"%string, "http://schemas.xmlsoap.org/soap/envelope/"%string);
     ("ns0"%string, Sax.RELATICS_NS)] [] [soap_body extra].

Definition existing_params : list Sax.element :=
  [Sax.El (Some "ns0"%string) "Parameters" [] []
     [Sax.El (Some "ns0"%string) "Parameters" [] []
        [Props.param_elem (Some "ns0"%string) ("Project"%string, "P-1"%string)]]].

End Fixtures3.

(* ------------------------------------------------------------------ *)
(** * Sanity checks of the library models *)

Module Sanity.
Import Client.

Example py_int_00001 : PyStr.py_int "00001" = Some 1.
Proof. reflexivity. Qed.
Example py_int_spaces : PyStr.py_int " -1_000 " = Some (-1000).
Proof. reflexivity. Qed.
Example py_int_bad : PyStr.py_int "1__0" = None.
Proof. reflexivity. Qed.
Example drop_17 : PyStr.drop 17 "Processing row : 00001" = "00001"%string.
Proof. reflexivity. Qed.

Example splitext_pdf : Path.splitext "dir.d/report.pdf" = ("dir.d/report"%string, ".pdf"%string).
Proof. reflexivity. Qed.
Example splitext_hidden : Path.splitext "a/.bashrc" = ("a/.bashrc"%string, ""%string).
Proof. reflexivity. Qed.
Example split_tail : Path.tail "/tmp/x/data.csv" = "data.csv"%string.
Proof. reflexivity. Qed.

End Sanity.

(* ------------------------------------------------------------------ *)
(** * Properties of the response normalisation *)

Module ResultsProofs.
Import Results Fixtures.

Lemma assoc_update_first (k : string) (f : sval -> sval) fs x :
  assoc k fs = Some x -> assoc k (update_first k f fs) = Some (f x).
Proof.
  induction fs as [|[k' v] t IH]; simpl; [discriminate|].
  destruct (String.eqb k k') eqn:E; simpl; rewrite ?E; [congruence | exact IH].
Qed.

Lemma assoc_filter_key (k : string) (fs : list (string * sval)) :
  assoc k (List.filter (fun kv => negb (String.eqb kv.1 k)) fs) = None.
Proof.
  induction fs as [|[k' v] t IH]; simpl; [reflexivity|].
  destruct (String.eqb k' k) eqn:E; simpl; [exact IH|].
  rewrite String.eqb_sym, E. exact IH.
Qed.

Lemma sattr_update_attr v k f x :
  sattr v k = Some x -> sattr (update_attr v k f) k = Some (f x).
Proof. destruct v; simpl; try discriminate. apply assoc_update_first. Qed.

Lemma sattr_delattr v k x : sattr v k = Some x -> sattr (delattr v k) k = None.
Proof. destruct v; simpl; try discriminate. intros _. apply assoc_filter_key. Qed.

(** The [Field] object left by a never-assigned [has_error] makes the
    result falsy. *)
Lemma class_field_falsy : truthy ClassField = true.
Proof. reflexivity. Qed.

Example import_example_rows :
  option_map (fun r => map row (messages r))
    (match import_from_suds string Some (fun _ => ""%string) (fun _ => ""%string)
             (progress_then_success "10:00:00" "10:00:01") with
     | Ok r => Some r | Err _ => None end) = Some [1; 1].
Proof. reflexivity. Qed.

(** C1 (amended): for the Import response whose [Import.Message] list is
    [("Progress", "Processing row : 00001", t1), ("Success", "ok", t2)]
    (with both times accepted by [time.fromisoformat]), [from_suds]
    succeeds with [has_error = False], and both messages carry row 1:
    the "Processing row" message is tagged after its own row update. *)
Theorem import_rows_of_progress_example
    (T : Type) (fromiso : string -> option T) (srepr sstr : sval -> string)
    (t1 t2 : string) (x1 x2 : T) :
  fromiso t1 = Some x1 -> fromiso t2 = Some x2 ->
  exists r,
    import_from_suds T fromiso srepr sstr (progress_then_success t1 t2) = Ok r /\
    has_error (im_base r) = Assigned false /\
    messages r =
      [mk_message T x1 (SText "Progress") (SText "Processing row : 00001") 1;
       mk_message T x2 (SText "Success") (SText "ok") 1].
Proof.
  intros H1 H2. unfold import_from_suds, progress_then_success. simpl.
  rewrite H1. simpl. rewrite H2. simpl.
  eexists. split; [reflexivity | split; reflexivity].
Qed.

Lemma import_rows_of_progress_example_witness :
  Some "10:00:00"%string = Some "10:00:00"%string /\
  exists r,
    import_from_suds string Some (fun _ => ""%string) (fun _ => ""%string)
      (progress_then_success "10:00:00" "10:00:01") = Ok r /\
    has_error (im_base r) = Assigned false /\
    messages r =
      [mk_message string "10:00:00"%string (SText "Progress") (SText "Processing row : 00001") 1;
       mk_message string "10:00:01"%string (SText "Success") (SText "ok") 1].
Proof.
  split; [reflexivity|].
  apply (import_rows_of_progress_example string Some (fun _ => ""%string) (fun _ => ""%string));
    reflexivity.
Defined.

(** C1 as stated is false: the first message does not carry row 0. *)
Lemma import_rows_not_pre_update :
  ~ (forall (T : Type) (fromiso : string -> option T) (srepr sstr : sval -> string)
       (t1 t2 : string) (x1 x2 : T),
       fromiso t1 = Some x1 -> fromiso t2 = Some x2 ->
       exists r,
         import_from_suds T fromiso srepr sstr (progress_then_success t1 t2) = Ok r /\
         map row (messages r) = [0; 1]).
Proof.
  intros H.
  destruct (H string Some (fun _ => ""%string) (fun _ => ""%string)
              "10:00:00" "10:00:01" "10:00:00" "10:00:01" eq_refl eq_refl)
    as [r [Hr Hrows]].
  vm_compute in Hr. injection Hr as <-. discriminate Hrows.
Qed.

Lemma res_bind_ok_inv {A B} (m : res A) (k : A -> res B) b :
  res_bind m k = Ok b -> exists a, m = Ok a /\ k a = Ok b.
Proof. destruct m as [a|x]; cbn [res_bind]; [eauto | discriminate]. Qed.

(** C2 (code bug): a response whose [Export] field carries an [_Error]
    gets [has_error = True] from [handle_suds_response_errors], but an
    [Import] field next to it makes [ImportResult.from_suds] reset it to
    [False], and a [Report.Documents] text node next to it makes
    [ExportResult.from_suds] reset it to [False]: every result these
    calls return for such responses reports no error and is truthy. *)
Theorem export_error_cleared
    (T : Type) (fromiso : string -> option T) (b64 : string -> option bytes)
    (zipl : bytes -> option (list (string * bytes))) (srepr sstr : sval -> string)
    (v e m : sval) :
  sattr v "Export" = Some e -> sattr e "_Error" = Some m ->
  (forall imp r, sattr v "Import" = Some imp ->
     import_from_suds T fromiso srepr sstr (Some v) = Ok r ->
     has_error (im_base r) = Assigned false /\ import_bool r = true) /\
  (forall rep s r, sattr v "Report" = Some rep -> sattr rep "Documents" = Some (SText s) ->
     export_from_suds b64 zipl srepr sstr (Some v) = Ok r ->
     has_error (ex_base r) = Assigned false /\ export_bool r = true).
Proof.
  intros HE Hm. split.
  - intros imp r HI H. unfold import_from_suds, handle_suds_response_errors in H.
    rewrite HE, Hm in H. cbn [res_bind] in H. rewrite HI in H.
    apply res_bind_ok_inv in H as [[[[[b msgs] els] tr] el] [Hp H]].
    apply res_bind_ok_inv in Hp as [[[msgs' tr'] el'] [_ Hp]].
    apply res_bind_ok_inv in Hp as [els' [_ Hp]].
    injection Hp as <- _ _ _ _. cbn [hasattr] in H. rewrite HE in H. cbn in H.
    injection H as <-. split; reflexivity.
  - intros rep s r HR HD H. unfold export_from_suds, handle_suds_response_errors in H.
    rewrite HE, Hm in H. cbn [res_bind] in H. rewrite HR, HD in H.
    apply res_bind_ok_inv in H as [[[b docs] r'] [Hp H]].
    apply res_bind_ok_inv in Hp as [raw [_ Hp]].
    apply res_bind_ok_inv in Hp as [ents [_ Hp]].
    apply res_bind_ok_inv in Hp as [ds [_ Hp]].
    injection Hp as <- _ <-.
    assert (HR' : sattr (update_attr v "Report" (fun rp => delattr rp "Documents")) "Report" =
                  Some (delattr rep "Documents")) by exact (sattr_update_attr v "Report" (fun rp => delattr rp "Documents") rep HR).
    cbn [hasattr] in H. rewrite HR' in H. cbn in H.
    rewrite andb_false_r in H. injection H as <-. split; reflexivity.
Qed.

Lemma export_error_cleared_witness :
  (exists r,
     import_from_suds unit (fun _ => None) (fun _ => ""%string) (fun _ => ""%string)
       (Some (SObj [("Export", SObj [("_Error", SText "Value cannot be null.")]);
                    ("Import", SObj []); ("Report", SObj [("Documents", SText "UEsDBA==")])])) = Ok r /\
     has_error (im_base r) = Assigned false) /\
  (exists r,
     export_from_suds (fun _ => Some []) (fun _ => Some []) (fun _ => ""%string) (fun _ => ""%string)
       (Some (SObj [("Export", SObj [("_Error", SText "Value cannot be null.")]);
                    ("Import", SObj []); ("Report", SObj [("Documents", SText "UEsDBA==")])])) = Ok r /\
     has_error (ex_base r) = Assigned false).
Proof.
  assert (H := export_error_cleared unit (fun _ => None) (fun _ => Some []) (fun _ => Some [])
                 (fun _ => ""%string) (fun _ => ""%string)
                 (SObj [("Export", SObj [("_Error", SText "Value cannot be null.")]);
                        ("Import", SObj []); ("Report", SObj [("Documents", SText "UEsDBA==")])])
                 (SObj [("_Error", SText "Value cannot be null.")]) (SText "Value cannot be null.")
                 eq_refl eq_refl).
  destruct H as [HI HX]. split.
  - eexists. split; [vm_compute; reflexivity|].
    exact (proj1 (HI (SObj []) _ eq_refl ltac:(vm_compute; reflexivity))).
  - eexists. split; [vm_compute; reflexivity|].
    exact (proj1 (HX (SObj [("Documents", SText "UEsDBA==")]) "UEsDBA=="%string _ eq_refl eq_refl
                    ltac:(vm_compute; reflexivity))).
Defined.

(** The other half of the claim, on the code: an [Export] without
    [_Error] makes [repr()] (no argument) raise TypeError, so no result
    is produced. *)
Lemma export_without_error_raises
    (T : Type) (fromiso : string -> option T) (srepr sstr : sval -> string) :
  import_from_suds T fromiso srepr sstr (Some (SObj [("Export", SObj [])])) = Err TypeError.
Proof. reflexivity. Qed.

(** C3 (code bug, evaluated at the failing input): an export response
    [Report] without a [Documents] text node and no [Export] never gets
    [has_error] assigned: the instance shows the class attribute, the
    [dataclasses.Field] object, and the result is falsy. *)
Theorem report_without_documents_unassigned
    (b64 : string -> option bytes) (zipl : bytes -> option (list (string * bytes)))
    (srepr sstr : sval -> string) :
  exists r,
    export_from_suds b64 zipl srepr sstr (Some (SObj [("Report", SObj [])])) = Ok r /\
    has_error (ex_base r) = ClassField /\ export_bool r = false.
Proof. eexists. split; [reflexivity | split; reflexivity]. Qed.

(** The import side of C3 does set [has_error = False]: a response with
    an [Import] field and no [Export] field. *)
Lemma import_field_not_error
    (T : Type) (fromiso : string -> option T) (srepr sstr : sval -> string) (v : sval) r :
  sattr v "Export" = None -> sattr v "Import" <> None ->
  import_from_suds T fromiso srepr sstr (Some v) = Ok r ->
  has_error (im_base r) = Assigned false.
Proof.
  intros HE HI. unfold import_from_suds, handle_suds_response_errors. rewrite HE. simpl.
  destruct (sattr v "Import") as [imp|] eqn:HI'; [|congruence].
  destruct (match sattr imp "Message" with
            | Some mv => import_messages T fromiso (py_iter mv) 0 None None []
            | None => Ok ([], None, None) end) as [[[ms tr] el]|ex]; simpl; [|discriminate].
  destruct (match sattr imp "Elements" with
            | Some ev => if (0 <? py_len ev)%nat
                         then let* g := py_index0 ev in import_elements (py_iter g)
                         else Ok []
            | None => Ok [] end) as [els|ex]; simpl; [|discriminate].
  rewrite ?HE, ?HI'. simpl. intros H. injection H as <-. reflexivity.
Qed.

(** C4 (code bug, evaluated at the failing input of C3): the result is
    falsy while its [has_error] is not [True]. *)
Theorem falsy_without_has_error_true
    (b64 : string -> option bytes) (zipl : bytes -> option (list (string * bytes)))
    (srepr sstr : sval -> string) :
  exists r,
    export_from_suds b64 zipl srepr sstr (Some (SObj [("Report", SObj [])])) = Ok r /\
    export_bool r = false /\ has_error (ex_base r) <> Assigned true.
Proof. eexists. split; [reflexivity | split; [reflexivity | discriminate]]. Qed.


(** Case analysis on every [match] of an unfolded [from_suds]. *)
Ltac split_matches :=
  repeat (simpl in *; unfold res_bind in *;
          match goal with
          | |- context [match ?x with _ => _ end] => destruct x eqn:?
          | H : context [match ?x with _ => _ end] |- _ => destruct x eqn:?
          end).

(** For [ImportResult] every returned result has [has_error] assigned,
    so there it is falsy exactly when [has_error] is [True]. *)
Lemma import_bool_iff_error
    (T : Type) (fromiso : string -> option T) (srepr sstr : sval -> string) rsp r :
  import_from_suds T fromiso srepr sstr rsp = Ok r ->
  (import_bool r = false <-> has_error (im_base r) = Assigned true).
Proof.
  unfold import_from_suds, handle_suds_response_errors, import_bool.
  destruct rsp as [v|]; simpl.
  2: intros H; injection H as <-; simpl; split; congruence.
  destruct (sattr v "Export") as [e|] eqn:HE; [destruct (sattr e "_Error")|];
    destruct (sattr v "Import") eqn:HI;
    split_matches; intros H; simplify_eq/=; split; congruence.
Qed.

(** C5 (code bug, evaluated at the failing input [None]): both
    [from_suds] return [has_error = True], but the empty message set by
    [handle_suds_response_errors] is overwritten by the "unrecognized
    response" branch with [repr(None)], the text "None". *)
Theorem none_response_message
    (T : Type) (fromiso : string -> option T) (b64 : string -> option bytes)
    (zipl : bytes -> option (list (string * bytes))) (srepr sstr : sval -> string) :
  (exists r, export_from_suds b64 zipl srepr sstr None = Ok r /\
     ex_base r = mk_base (Assigned true) (Assigned "None")) /\
  (exists r, import_from_suds T fromiso srepr sstr None = Ok r /\
     im_base r = mk_base (Assigned true) (Assigned "None")).
Proof. split; eexists; split; reflexivity. Qed.

(** C6: for a response whose [Report.Documents] is a text node holding
    the base64 encoding of a zip archive with the single member [a.txt]
    of bytes "hello" (and whose [Export], if any, carries [_Error]),
    [ExportResult.from_suds] yields [documents = {"a.txt": b"hello"}] and
    the tree kept in [data] has no [Documents] under [Report]. *)
Theorem export_documents_extracted
    (b64 : string -> option bytes) (zipl : bytes -> option (list (string * bytes)))
    (srepr sstr : sval -> string) (v rep : sval) (s : string) (raw : bytes) :
  (forall e, sattr v "Export" = Some e -> sattr e "_Error" <> None) ->
  sattr v "Report" = Some rep ->
  sattr rep "Documents" = Some (SText s) ->
  b64 s = Some raw ->
  zipl raw = Some [("a.txt"%string, hello)] ->
  exists r,
    export_from_suds b64 zipl srepr sstr (Some v) = Ok r /\
    documents r = [("a.txt"%string, hello)] /\
    exists v' rep', data r = Some v' /\ sattr v' "Report" = Some rep' /\
                    sattr rep' "Documents" = None.
Proof.
  intros HE HR HD Hb Hz.
  assert (Hh : exists b, handle_suds_response_errors sstr (Some v) base0 = Ok b).
  { unfold handle_suds_response_errors.
    destruct (sattr v "Export") as [e|] eqn:He; [|eauto].
    destruct (sattr e "_Error") eqn:Hm; [eauto|].
    exfalso. exact (HE e eq_refl Hm). }
  destruct Hh as [b Hh].
  set (f := fun rp => delattr rp "Documents").
  assert (HR' : sattr (update_attr v "Report" f) "Report" = Some (f rep))
    by (apply sattr_update_attr; exact HR).
  unfold export_from_suds. rewrite Hh. simpl. rewrite HR, HD. simpl.
  rewrite Hb. simpl. rewrite Hz. simpl. fold f. rewrite HR'. simpl.
  eexists. split; [rewrite andb_false_r; reflexivity|]. split; [reflexivity|].
  exists (update_attr v "Report" f), (f rep). split; [reflexivity|].
  split; [exact HR'|]. eapply sattr_delattr. exact HD.
Qed.

Lemma export_documents_extracted_witness :
  exists r,
    export_from_suds (fun _ => Some []) (fun _ => Some [("a.txt"%string, hello)])
      (fun _ => ""%string) (fun _ => ""%string) (Some sample_report) = Ok r /\
    documents r = [("a.txt"%string, hello)] /\
    exists v' rep', data r = Some v' /\ sattr v' "Report" = Some rep' /\
                    sattr rep' "Documents" = None.
Proof.
  apply (export_documents_extracted (fun _ => Some []) (fun _ => Some [("a.txt"%string, hello)])
           (fun _ => ""%string) (fun _ => ""%string) sample_report
           (SObj [("Documents", SText "UEsDBA==")]) "UEsDBA==" []);
    try reflexivity.
  intros e He. discriminate He.
Defined.

(** The [ImportResult] lemmas above, applied to a response with an empty
    [Import] field. *)
Lemma import_field_not_error_witness :
  exists r,
    import_from_suds unit (fun _ => None) (fun _ => ""%string) (fun _ => ""%string)
      (Some (SObj [("Import", SObj [])])) = Ok r /\
    has_error (im_base r) = Assigned false.
Proof.
  eexists. split; [reflexivity |].
  apply (import_field_not_error unit (fun _ => None) (fun _ => ""%string) (fun _ => ""%string)
           (SObj [("Import", SObj [])])); [reflexivity | discriminate | reflexivity].
Defined.

Lemma import_bool_iff_error_witness :
  exists r,
    import_from_suds unit (fun _ => None) (fun _ => ""%string) (fun _ => ""%string) None = Ok r /\
    (import_bool r = false <-> has_error (im_base r) = Assigned true).
Proof.
  eexists. split; [reflexivity |].
  apply (import_bool_iff_error unit (fun _ => None) (fun _ => ""%string) (fun _ => ""%string) None).
  reflexivity.
Defined.

End ResultsProofs.

(* ------------------------------------------------------------------ *)
(** * Properties of the client *)

Module ClientProofs.
Import Client Fixtures.

Lemma mbind_ok {A B} (m : M A) (k : A -> M B) e w w' a :
  m e w = (w', Ok a) -> mbind m k e w = k a e w'.
Proof. unfold mbind. intros ->. reflexivity. Qed.

Lemma mbind_err {A B} (m : M A) (k : A -> M B) e w w' x :
  m e w = (w', Err x) -> mbind m k e w = (w', Err x).
Proof. unfold mbind. intros ->. reflexivity. Qed.

Ltac mstep :=
  unfold mbind, mret, raise, lift, ask, gets, modify, emit, of_option in *; simpl in *.

Lemma cred_frame_refl h w : cred_frame h w w.
Proof. repeat split. Qed.

Lemma cred_frame_trans h w1 w2 w3 :
  cred_frame h w1 w2 -> cred_frame h w2 w3 -> cred_frame h w1 w3.
Proof.
  intros [H1 [H2 H3]] [G1 [G2 G3]]. repeat split; try congruence.
  intros k Hk. rewrite G3, H3 by exact Hk. reflexivity.
Qed.

Lemma retrieve_token_frame h ua e w :
  cred_frame h w (retrieve_token h ua e w).1 /\ fs (retrieve_token h ua e w).1 = fs w.
Proof.
  unfold retrieve_token. mstep.
  destruct (token_reply e h) as [resp|x]; simpl; [|repeat split].
  destruct (resp !! "error"%string); [destruct (resp !! "error_description"%string)|];
    simpl; [repeat split | repeat split|].
  destruct (resp !! "access_token"%string) as [tok|]; simpl; [|repeat split].
  destruct (resp !! "expires_in"%string) as [ei|]; simpl; [|repeat split].
  destruct (timedelta_s ei) as [d|x]; simpl; [|repeat split].
  destruct (dt_add (now e) d) as [exp|x]; simpl; [|repeat split].
  split; [|reflexivity].
  repeat split. intros k Hk. unfold set_tokens. simpl.
  apply lookup_insert_ne. congruence.
Qed.

(** The [get_token] step also leaves the files alone. *)
Lemma get_token_frame h force ua e w :
  cred_frame h w (get_token h force ua e w).1 /\ fs (get_token h force ua e w).1 = fs w.
Proof.
  unfold get_token. mstep.
  destruct (force || match tokens (cred w) !! h with
                     | Some ent => td_seconds (expires_on ent - now e) <=? 300
                     | None => true end).
  - destruct (retrieve_token_frame h ua e w) as [Hf Hfs].
    destruct (retrieve_token h ua e w) as [w1 [[]|x]]; simpl in *; [|split; assumption].
    destruct (tokens (cred w1) !! h); simpl; split; assumption.
  - destruct (tokens (cred w) !! h); simpl; split; [apply cred_frame_refl|reflexivity|
                                                    apply cred_frame_refl|reflexivity].
Qed.

(** C10: [get_token h] (with the [retrieve_token h] it may perform)
    changes neither [client_id] nor [client_secret], nor the cached
    entry of any other hostname, whatever the outcome. *)
Theorem get_token_only_touches_host (h : string) (force : bool) (ua : string) (e : env) (w : world) :
  let w' := (get_token h force ua e w).1 in
  client_id (cred w') = client_id (cred w) /\
  client_secret (cred w') = client_secret (cred w) /\
  (forall k, k <> h -> tokens (cred w') !! k = tokens (cred w) !! k) /\
  (let w'' := (retrieve_token h ua e w).1 in
   client_id (cred w'') = client_id (cred w) /\
   client_secret (cred w'') = client_secret (cred w) /\
   (forall k, k <> h -> tokens (cred w'') !! k = tokens (cred w) !! k)).
Proof.
  simpl. destruct (get_token_frame h force ua e w) as [[A [B C]] _].
  destruct (retrieve_token_frame h ua e w) as [[A' [B' C']] _].
  repeat split; assumption.
Qed.

(** [retrieve_token] always sends exactly one request. *)
Lemma retrieve_token_trace h ua e w :
  trace (retrieve_token h ua e w).1 = trace w ++ [token_request w h ua].
Proof.
  unfold retrieve_token, token_request. mstep.
  destruct (token_reply e h) as [resp|x]; simpl; [|reflexivity].
  destruct (resp !! "error"%string); [destruct (resp !! "error_description"%string)|];
    simpl; try reflexivity.
  destruct (resp !! "access_token"%string) as [tok|]; simpl; [|reflexivity].
  destruct (resp !! "expires_in"%string) as [ei|]; simpl; [|reflexivity].
  destruct (timedelta_s ei) as [d|x]; simpl; [|reflexivity].
  destruct (dt_add (now e) d) as [exp|x]; reflexivity.
Qed.

Lemma retrieve_token_entry h ua e w w1 resp tok E :
  token_reply e h = Ok resp ->
  resp !! "error"%string = None ->
  resp !! "access_token"%string = Some tok ->
  resp !! "expires_in"%string = Some (JInt E) ->
  retrieve_token h ua e w = (w1, Ok tt) ->
  tokens (cred w1) !! h = Some (mk_entry tok (now e + E * 1000000)).
Proof.
  intros Hr He Ha Hx. unfold retrieve_token. mstep.
  rewrite Hr, He, Ha, Hx. simpl. unfold timedelta_s.
  destruct ((- 999999999 * 86400 <=? E) && (E <? 1000000000 * 86400)); simpl;
    [|discriminate].
  unfold dt_add.
  destruct ((0 <=? now e + E * 1000000) && (now e + E * 1000000 <? DATETIME_END)); simpl;
    [|discriminate].
  intros H. injection H as <-. unfold set_tokens. simpl. apply lookup_insert_eq.
Qed.

(** Remaining validity between 301 s and one day: the cached token is
    returned and nothing changes. *)
Lemma get_token_reuse h ua e w ent :
  tokens (cred w) !! h = Some ent ->
  301000000 <= expires_on ent - now e < 86400000000 ->
  get_token h false ua e w = (w, Ok (token ent)).
Proof.
  intros Hl Hr. unfold get_token. mstep. rewrite Hl.
  assert (Hs : (td_seconds (expires_on ent - now e) <=? 300) = false).
  { unfold td_seconds. rewrite Z.mod_small by lia.
    apply Z.leb_gt. enough (301 <= (expires_on ent - now e) / 1000000) by lia.
    apply Z.div_le_lower_bound; lia. }
  rewrite Hs. simpl. rewrite Hl. reflexivity.
Qed.

(** Remaining validity in [0, 301 s): a new token request is sent. *)
Lemma get_token_refresh h ua e w ent :
  tokens (cred w) !! h = Some ent ->
  0 <= expires_on ent - now e < 301000000 ->
  trace (get_token h false ua e w).1 = trace w ++ [token_request w h ua].
Proof.
  intros Hl Hr. unfold get_token. mstep. rewrite Hl.
  assert (Hs : (td_seconds (expires_on ent - now e) <=? 300) = true).
  { unfold td_seconds. rewrite Z.mod_small by lia.
    apply Z.leb_le. enough ((expires_on ent - now e) / 1000000 < 301) by lia.
    apply Z.div_lt_upper_bound; lia. }
  rewrite Hs. simpl.
  pose proof (retrieve_token_trace h ua e w) as Ht.
  destruct (retrieve_token h ua e w) as [w1 [[]|x]]; simpl in *; [|exact Ht].
  destruct (tokens (cred w1) !! h); exact Ht.
Qed.

(** C7 (amended): after a successful [retrieve_token h] at time [t0]
    whose response has [expires_in = E] seconds, a later
    [get_token h] with [force_refresh = False]
    - sends no request and returns the cached token when called within
      295 s of [t0], provided 596 <= E < 86400 (so that more than 300 s
      and less than one day remain);
    - sends a new token request when called after the expiry minus the
      300 s threshold and up to the expiry (remaining validity in
      [0, 301 s), i.e. whole seconds left <= 300). *)
Theorem get_token_refresh_window
    (e1 : env) (w w1 : world) (h ua : string) (resp : gmap string json) (tok : json) (E : Z) :
  token_reply e1 h = Ok resp ->
  resp !! "error"%string = None ->
  resp !! "access_token"%string = Some tok ->
  resp !! "expires_in"%string = Some (JInt E) ->
  retrieve_token h ua e1 w = (w1, Ok tt) ->
  (forall e2 : env, 596 <= E < 86400 -> now e1 <= now e2 <= now e1 + 295000000 ->
     get_token h false ua e2 w1 = (w1, Ok tok)) /\
  (forall e3 : env,
     now e1 + E * 1000000 - 301000000 < now e3 <= now e1 + E * 1000000 ->
     trace (get_token h false ua e3 w1).1 = trace w1 ++ [token_request w1 h ua]).
Proof.
  intros Hr He Ha Hx Hok.
  pose proof (retrieve_token_entry h ua e1 w w1 resp tok E Hr He Ha Hx Hok) as Hl.
  split.
  - intros e2 HE Ht. apply (get_token_reuse h ua e2 w1 _ Hl). simpl. lia.
  - intros e3 Ht. apply (get_token_refresh h ua e3 w1 _ Hl). simpl. lia.
Qed.

Lemma get_token_refresh_window_witness :
  retrieve_token "acme.relaticsonline.com" USER_AGENT (token_env T0 3600) world0 =
    ((retrieve_token "acme.relaticsonline.com" USER_AGENT (token_env T0 3600) world0).1, Ok tt) /\
  get_token "acme.relaticsonline.com" false USER_AGENT (token_env (T0 + 200000000) 3600)
    (retrieve_token "acme.relaticsonline.com" USER_AGENT (token_env T0 3600) world0).1 =
    ((retrieve_token "acme.relaticsonline.com" USER_AGENT (token_env T0 3600) world0).1,
     Ok (JStr "tok")).
Proof.
  split; [vm_compute; reflexivity|].
  apply (get_token_refresh_window (token_env T0 3600) world0 _ "acme.relaticsonline.com"
           USER_AGENT (<["access_token"%string := JStr "tok"]> (<["expires_in"%string := JInt 3600]> ∅))
           (JStr "tok") 3600);
    [reflexivity | vm_compute; reflexivity | vm_compute; reflexivity | vm_compute; reflexivity
    | vm_compute; reflexivity | simpl; lia | simpl; lia].
Defined.

(** C7 as stated is false: with [expires_in = 300] the call one second
    after a successful retrieval sends a second token request. *)
Lemma second_request_within_295s :
  let w1 := (get_token "acme.relaticsonline.com" false USER_AGENT (token_env T0 300) world0).1 in
  length (trace w1) = 1%nat /\
  length (trace (get_token "acme.relaticsonline.com" false USER_AGENT
                   (token_env (T0 + 1000000) 300) w1).1) = 2%nat.
Proof. vm_compute. split; reflexivity. Qed.

(** The check [(expires_on - now).seconds <= 300] reads only the
    seconds component of the difference: a token that expired
    ten seconds ago is reused without any request. *)
Lemma expired_token_reused :
  let w1 := (get_token "acme.relaticsonline.com" false USER_AGENT (token_env T0 3600) world0).1 in
  get_token "acme.relaticsonline.com" false USER_AGENT (token_env (T0 + 3610000000) 3600) w1 =
    (w1, Ok (JStr "tok")).
Proof. vm_compute. reflexivity. Qed.

Section Payload.
Variable xml_str : list (list (string * string)) -> string.
Variable zip_bytes : list (string * string) -> string.
Variable b64encode : string -> string.

(** C8 (code bug, evaluated at the failing input): [run_import] with
    the data file "report.pdf" raises TypeError, but only after
    [Client(self.wsdl_url)] has downloaded the WSDL. *)
Theorem unsupported_extension_after_wsdl_fetch :
  run_import xml_str zip_bytes b64encode acme "ImportOperation" (DPath "report.pdf")
    AuthNone None None false import_env world0 =
  (mk_world creds0 ∅ [WsdlFetch "https://acme.relaticsonline.com/DataExchange.asmx?wsdl"],
   Err TypeError).
Proof. reflexivity. Qed.

Lemma write_file_run p c e w :
  write_file p c e w = (mk_world (cred w) (<[p := c]> (fs w)) (trace w), Ok tt).
Proof. reflexivity. Qed.





(** The part of [run_import] after the payload: authentication header,
    [Import] call; it leaves the files alone. *)
Lemma run_import_tail_fs (h op fname data_str : string) (auth : authentication) e w :
  fs ((let entrycode := match auth with AuthEntrycode c => Some c | _ => None end in
       let! bearer :=
         match auth with
         | AuthCred => let! t := get_token h false USER_AGENT in mret (Some t)
         | _ => mret None
         end in
       let! _ := emit (SoapImport op fname data_str entrycode bearer) in
       let! r := ask import_reply in lift r) e w).1 = fs w.
Proof.
  destruct auth as [|c|]; cbv zeta; try reflexivity.
  destruct (get_token_frame h false USER_AGENT e w) as [_ Hfs].
  destruct (get_token h false USER_AGENT e w) as [w3 [t|x]] eqn:Hg.
  - rewrite (mbind_ok (mbind (get_token h false USER_AGENT) (fun t => mret (Some t))) _
               e w w3 (Some t)) by (rewrite (mbind_ok _ _ e w w3 t Hg); reflexivity).
    mstep. exact Hfs.
  - rewrite (mbind_err (mbind (get_token h false USER_AGENT) (fun t => mret (Some t))) _
               e w w3 x) by (rewrite (mbind_err _ _ e w w3 x Hg); reflexivity).
    exact Hfs.
Qed.


End Payload.



(** [keep_zip_file = True] only skips [del import_zip]: the archive is
    removed all the same. *)
Lemma keep_flag_does_not_keep :
  fs (run_import xml0 zip0 b640 acme "ImportOperation" rows1 AuthNone None
        (Some ["/home/user/drawing.pdf"%string]) true import_env drawing_world).1
    !! "/tmp/pyrelatics_webservice.zip"%string = None.
Proof. vm_compute. reflexivity. Qed.
End ClientProofs.

(* ------------------------------------------------------------------ *)
(** * Properties of the result views and their rendering *)

Module RenderProofs.
Import Results Render.

Lemma filter_length_split {A} (f g : A -> bool) (l : list A) :
  (forall x, In x l -> f x && g x = false) ->
  length (List.filter (fun x => f x || g x) l) = (length (List.filter f l) + length (List.filter g l))%nat.
Proof.
  induction l as [|x t IH]; intros H; [reflexivity|]. simpl.
  assert (Hx := H x (or_introl eq_refl)).
  assert (IH' := IH ltac:(intros y Hy; apply H; right; exact Hy)).
  destruct (f x), (g x); simpl in *; try discriminate; lia.
Qed.

Lemma filter_all {A} (f : A -> bool) (l : list A) :
  (forall x, In x l -> f x = true) -> List.filter f l = l.
Proof.
  induction l as [|x t IH]; intros H; [reflexivity|]. simpl.
  rewrite (H x (or_introl eq_refl)), IH by (intros y Hy; apply H; right; exact Hy).
  reflexivity.
Qed.

(** The five status views of an ImportResult together hold every
    message exactly once when each message has one of the five statuses
    of [status_fore_color]. *)
Theorem message_views_partition {T} (r : ImportResult T) :
  Forall (fun m => known_status (status m) = true) (messages r) ->
  (length (progress_messages r) + length (comment_messages r) + length (success_messages r) +
   length (warning_messages r) + length (error_messages r))%nat = length (messages r).
Proof.
  intros H. unfold progress_messages, comment_messages, success_messages, warning_messages,
    error_messages, filter_messages.
  induction (messages r) as [|m t IH]; [reflexivity|].
  inversion H as [|? ? Hm Ht]; subst. simpl.
  specialize (IH Ht).
  destruct (status m) as [s| |]; try discriminate. unfold known_status in Hm. simpl in Hm.
  cbn [eq_str].
  destruct (String.eqb s "Progress") eqn:E1;
    [apply String.eqb_eq in E1; subst; simpl; lia|].
  destruct (String.eqb s "Comment") eqn:E2;
    [apply String.eqb_eq in E2; subst; simpl; lia|].
  destruct (String.eqb s "Success") eqn:E3;
    [apply String.eqb_eq in E3; subst; simpl; lia|].
  destruct (String.eqb s "Warning") eqn:E4;
    [apply String.eqb_eq in E4; subst; simpl; lia|].
  destruct (String.eqb s "Error") eqn:E5;
    [apply String.eqb_eq in E5; subst; simpl; lia|].
  discriminate Hm.
Qed.

(** [added_elements] and [updated_elements] together hold every element
    exactly once when each action is "Add" or "Update". *)
Theorem element_views_partition {T} (r : ImportResult T) :
  Forall (fun el => eq_str (action el) "Add" || eq_str (action el) "Update" = true) (elements r) ->
  (length (added_elements r) + length (updated_elements r))%nat = length (elements r).
Proof.
  intros H. unfold added_elements, updated_elements, filter_elements.
  rewrite <- filter_length_split.
  - rewrite filter_all; [reflexivity|]. intros x Hx. rewrite List.Forall_forall in H. apply H. exact Hx.
  - intros x _. destruct (action x) as [s| |]; simpl; [|reflexivity|reflexivity].
    destruct (String.eqb s "Add") eqn:E; [|reflexivity].
    apply String.eqb_eq in E; subst. reflexivity.
Qed.

(** ** Rendering *)

Section Str.
Variable time_t : Type.
Variable time_str : time_t -> string.
Variable suds_str : sval -> string.
Variable field_str : string.

Lemma message_str_err (m : ImportMessage time_t) x :
  message_str time_t time_str suds_str m = Err x <->
  known_status (status m) = false /\ x = match status m with SList _ => TypeError | _ => KeyError end.
Proof.
  unfold message_str, known_status.
  destruct (status m) as [s| |]; [destruct (assoc s status_fore_color) | |]; cbn [of_option res_bind].
  - split; [discriminate | intros [H _]; discriminate].
  - split; [intros H; injection H as <-; auto | intros [_ ->]; reflexivity].
  - split; [intros H; injection H as <-; auto | intros [_ ->]; reflexivity].
  - split; [intros H; injection H as <-; auto | intros [_ ->]; reflexivity].
Qed.

Lemma message_str_ok (m : ImportMessage time_t) :
  (exists s, message_str time_t time_str suds_str m = Ok s) <-> known_status (status m) = true.
Proof.
  destruct (message_str time_t time_str suds_str m) as [s|y] eqn:Hm.
  - split; [intros _ | intros _; eauto].
    destruct (known_status (status m)) eqn:Hk; [reflexivity|].
    assert (Hz := proj2 (message_str_err m _) (conj Hk eq_refl)). congruence.
  - apply message_str_err in Hm as [Hk _]. rewrite Hk.
    split; [intros [s Hs]; discriminate Hs | discriminate].
Qed.

(** The loop stops at the first line that raises. *)
Lemma render_lines_err {A} (f : A -> res string) acc (xs : list A) x :
  render_lines f acc xs = Err x <->
  exists pre y post, xs = pre ++ y :: post /\ Forall (fun z => exists s, f z = Ok s) pre /\ f y = Err x.
Proof.
  unfold render_lines. revert acc. induction xs as [|a t IH]; intros acc; cbn [res_fold].
  - split; [discriminate|]. intros [pre [y [post [H _]]]]. destruct pre; discriminate H.
  - destruct (f a) as [s|y0] eqn:Ha; cbn [res_bind].
    + rewrite IH. split.
      * intros [pre [y [post [-> [Hp Hy]]]]]. exists (a :: pre), y, post.
        split; [reflexivity|]. split; [constructor; [eauto | exact Hp] | exact Hy].
      * intros [[|a' pre] [y [post [H [Hp Hy]]]]]; cbn [app] in H; injection H as <- Ht.
        -- congruence.
        -- inversion Hp; subst. exists pre, y, post. auto.
    + split.
      * intros H. injection H as <-. exists [], a, t. split; [reflexivity|]. split; [constructor | exact Ha].
      * intros [[|a' pre] [y [post [H [Hp Hy]]]]]; cbn [app] in H; injection H as <- Ht.
        -- congruence.
        -- inversion Hp as [|? ? [s Hs]]; subst. congruence.
Qed.

Lemma render_elements_not_key acc (es : list ImportElement) :
  render_lines (element_str suds_str) acc es <> Err KeyError.
Proof.
  unfold render_lines. revert acc. induction es as [|el t IH]; intros acc; cbn [res_fold];
    [discriminate|].
  unfold element_str at 1. destruct (action el); cbn [res_bind]; [apply IH | discriminate | discriminate].
Qed.

(** [str()] of an ImportResult raises KeyError exactly when, going
    through its messages in order, the first one whose status is no key
    of [status_fore_color] ("Progress", "Comment", "Success", "Warning",
    "Error") has a hashable status, a text or a suds object: a list
    status raises TypeError instead, and the element lines never raise
    KeyError. *)
Theorem import_result_str_key_error (r : ImportResult time_t) :
  import_result_str time_t time_str suds_str field_str r = Err KeyError <->
  exists pre m post,
    messages r = pre ++ m :: post /\
    Forall (fun m => known_status (status m) = true) pre /\
    known_status (status m) = false /\ (forall xs, status m <> SList xs).
Proof.
  assert (Hmsg : forall acc ms,
    render_lines (message_str time_t time_str suds_str) acc ms = Err KeyError <->
    exists pre m post, ms = pre ++ m :: post /\
      Forall (fun m => known_status (status m) = true) pre /\
      known_status (status m) = false /\ (forall xs, status m <> SList xs)).
  { intros acc ms. rewrite render_lines_err. split.
    - intros [pre [m [post [-> [Hp Hm]]]]]. apply message_str_err in Hm as [Hk Hx].
      exists pre, m, post. split; [reflexivity|]. split.
      + apply List.Forall_forall. intros z Hz. apply message_str_ok.
        exact (proj1 (List.Forall_forall _ _) Hp z Hz).
      + split; [exact Hk|]. intros xs Hxs. rewrite Hxs in Hx. discriminate Hx.
    - intros [pre [m [post [-> [Hp [Hk Hl]]]]]]. exists pre, m, post. split; [reflexivity|]. split.
      + apply List.Forall_forall. intros z Hz. apply message_str_ok.
        exact (proj1 (List.Forall_forall _ _) Hp z Hz).
      + apply message_str_err. split; [exact Hk|].
        destruct (status m) as [| |xs]; [reflexivity | reflexivity | exfalso; exact (Hl xs eq_refl)]. }
  unfold import_result_str.
  destruct (messages r) as [|m ms] eqn:Hms.
  - cbn [res_bind]. split.
    + destruct (elements r); [discriminate|].
      intros H. exfalso. exact (render_elements_not_key _ _ H).
    + intros [pre [m [post [H _]]]]. destruct pre; discriminate H.
  - match goal with |- context [render_lines _ ?a (m :: ms)] => rewrite <- (Hmsg a (m :: ms)) end.
    destruct (render_lines (message_str time_t time_str suds_str) _ (m :: ms)) as [s|x] eqn:Hr;
      cbn [res_bind].
    + split; [|discriminate].
      destruct (elements r); [discriminate|]. intros H. exfalso.
      exact (render_elements_not_key _ _ H).
    + reflexivity.
Qed.

End Str.

(** ** The zero-padded row column *)

Lemma ascii_classes (c : ascii) :
  PyStr.is_digit c = true ->
  PyStr.is_space c = false /\ Ascii.eqb c "-" = false /\ Ascii.eqb c "+" = false.
Proof.
  destruct c as [b0 b1 b2 b3 b4 b5 b6 b7].
  destruct b0, b1, b2, b3, b4, b5, b6, b7; vm_compute; first [discriminate | auto].
Qed.

Lemma minus_not_space : PyStr.is_space "-"%char = false.
Proof. reflexivity. Qed.

Lemma digit_char (k : Z) :
  0 <= k < 10 ->
  PyStr.is_digit (Ascii.ascii_of_nat (48 + Z.to_nat k)) = true /\
  PyStr.digit_val (Ascii.ascii_of_nat (48 + Z.to_nat k)) = k.
Proof.
  intros Hk. unfold PyStr.is_digit, PyStr.digit_val.
  rewrite Ascii.nat_ascii_embedding by lia.
  split; [apply andb_true_intro; split; apply Nat.leb_le; lia | lia].
Qed.

Lemma digits_go_all (l : list ascii) (a : Z) :
  Forall (fun c => PyStr.is_digit c = true) l ->
  PyStr.digits_go l a false = Some (fold_left (fun acc c => acc * 10 + PyStr.digit_val c) l a).
Proof.
  revert a. induction l as [|c t IH]; intros a H; [reflexivity|].
  inversion H as [|? ? Hc Ht]; subst. simpl. rewrite Hc. apply IH. exact Ht.
Qed.

Lemma fold_zeros (k : nat) :
  fold_left (fun acc c => acc * 10 + PyStr.digit_val c) (repeat "0"%char k) 0 = 0.
Proof. induction k as [|k IH]; [reflexivity|]. simpl. exact IH. Qed.

Lemma dec_go_S (f : nat) (n : Z) (acc : list ascii) :
  Render.dec_go (S f) n acc =
  (if n <? 10 then Ascii.ascii_of_nat (48 + Z.to_nat (n mod 10)) :: acc
   else Render.dec_go f (n / 10) (Ascii.ascii_of_nat (48 + Z.to_nat (n mod 10)) :: acc)).
Proof. reflexivity. Qed.

Lemma one_digit (n : Z) (acc : list ascii) :
  0 <= n < 10 ->
  exists ds, Ascii.ascii_of_nat (48 + Z.to_nat (n mod 10)) :: acc = ds ++ acc /\ ds <> [] /\
    Forall (fun c => PyStr.is_digit c = true) ds /\
    fold_left (fun acc c => acc * 10 + PyStr.digit_val c) ds 0 = n /\
    (forall k : nat, (1 <= k)%nat -> n < 10 ^ Z.of_nat k -> (length ds <= k)%nat).
Proof.
  intros Hn. destruct (digit_char (n mod 10)) as [Hd Hv]; [apply Z.mod_pos_bound; lia|].
  exists [Ascii.ascii_of_nat (48 + Z.to_nat (n mod 10))].
  split; [reflexivity|]. split; [discriminate|]. split; [constructor; [exact Hd | constructor]|].
  split; [cbn [fold_left]; rewrite Hv, Z.mod_small by lia; lia|].
  intros k Hk _. simpl. lia.
Qed.

Lemma dec_go_spec (f : nat) : forall n acc,
  0 <= n < 10 ^ Z.of_nat (S f) ->
  exists ds, Render.dec_go (S f) n acc = ds ++ acc /\ ds <> [] /\
    Forall (fun c => PyStr.is_digit c = true) ds /\
    fold_left (fun acc c => acc * 10 + PyStr.digit_val c) ds 0 = n /\
    (forall k : nat, (1 <= k)%nat -> n < 10 ^ Z.of_nat k -> (length ds <= k)%nat).
Proof.
  induction f as [|f IH]; intros n acc Hn; rewrite dec_go_S.
  - assert (Hlt : n < 10) by (simpl in Hn; lia).
    rewrite (proj2 (Z.ltb_lt n 10) Hlt).
    apply (one_digit n acc). lia.
  - destruct (n <? 10) eqn:Hlt.
    + apply Z.ltb_lt in Hlt. apply (one_digit n acc). lia.
    + apply Z.ltb_ge in Hlt.
      destruct (digit_char (n mod 10)) as [Hd Hv]; [apply Z.mod_pos_bound; lia|].
      destruct (IH (n / 10) (Ascii.ascii_of_nat (48 + Z.to_nat (n mod 10)) :: acc)) as
        [ds [Heq [Hne [Hall [Hval Hlen]]]]].
      { split; [apply Z.div_pos; lia|].
        apply Z.div_lt_upper_bound; [lia|].
        replace (Z.of_nat (S (S f))) with (Z.succ (Z.of_nat (S f))) in Hn by lia.
        rewrite Z.pow_succ_r in Hn by lia. lia. }
      exists (ds ++ [Ascii.ascii_of_nat (48 + Z.to_nat (n mod 10))]).
      split; [rewrite Heq, <- app_assoc; reflexivity|].
      split; [destruct ds; [congruence | discriminate]|].
      split; [apply Forall_app; split; [exact Hall | constructor; [exact Hd | constructor]]|].
      split.
      * rewrite fold_left_app, Hval. cbn [fold_left]. rewrite Hv.
        pose proof (Z.div_mod n 10). lia.
      * intros k Hk Hnk. rewrite length_app. simpl.
        destruct k as [|k]; [lia|]. destruct k as [|k]; [simpl in Hnk; lia|].
        assert (Hk' : n / 10 < 10 ^ Z.of_nat (S k)).
        { apply Z.div_lt_upper_bound; [lia|].
          replace (Z.of_nat (S (S k))) with (Z.succ (Z.of_nat (S k))) in Hnk by lia.
          rewrite Z.pow_succ_r in Hnk by lia. lia. }
        specialize (Hlen (S k) ltac:(lia) Hk'). lia.
Qed.

Lemma dec_spec (n : Z) : 0 <= n ->
  exists ds, Render.dec n = ds /\ ds <> [] /\
    Forall (fun c => PyStr.is_digit c = true) ds /\
    fold_left (fun acc c => acc * 10 + PyStr.digit_val c) ds 0 = n /\
    (forall k : nat, (1 <= k)%nat -> n < 10 ^ Z.of_nat k -> (length ds <= k)%nat).
Proof.
  intros Hn. unfold Render.dec.
  destruct (dec_go_spec (Z.to_nat (Z.log2 n)) n [] ) as [ds [Heq H]].
  - split; [exact Hn|].
    rewrite Nat2Z.inj_succ, Z2Nat.id by apply Z.log2_nonneg.
    destruct (Z.eq_dec n 0) as [->|Hn0]; [simpl; lia|].
    destruct (Z.log2_spec n ltac:(lia)) as [_ Hup].
    eapply Z.lt_le_trans; [exact Hup|].
    apply Z.pow_le_mono_l. split; [lia | lia].
  - exists ds. rewrite Heq, app_nil_r. split; [reflexivity | exact H].
Qed.

Lemma length_string_of_list_ascii (l : list ascii) :
  String.length (string_of_list_ascii l) = length l.
Proof. induction l as [|c t IH]; simpl; [reflexivity | rewrite IH; reflexivity]. Qed.

Lemma strip_left_keep (c : ascii) (t : list ascii) :
  PyStr.is_space c = false -> PyStr.strip_left (c :: t) = c :: t.
Proof. intros H. simpl. rewrite H. reflexivity. Qed.

Lemma strip_keep (l : list ascii) (c d : ascii) (m : list ascii) :
  l = c :: m -> PyStr.is_space c = false ->
  (exists m', l = m' ++ [d]) -> PyStr.is_space d = false ->
  PyStr.strip l = l.
Proof.
  intros -> Hc [m' Hm'] Hd. unfold PyStr.strip. rewrite strip_left_keep by exact Hc.
  rewrite Hm', rev_app_distr. simpl. rewrite Hd. simpl. rewrite rev_involutive. reflexivity.
Qed.

Lemma digits_head (c : ascii) (t : list ascii) :
  Forall (fun c => PyStr.is_digit c = true) (c :: t) ->
  PyStr.digits (c :: t) = Some (fold_left (fun acc c => acc * 10 + PyStr.digit_val c) (c :: t) 0).
Proof.
  intros H. inversion H as [|? ? Hc Ht]; subst. simpl. rewrite Hc.
  apply digits_go_all. exact Ht.
Qed.

Lemma last_of_app_nonempty {A} (z ds : list A) :
  ds <> [] -> exists m' d, z ++ ds = m' ++ [d] /\ In d ds.
Proof.
  intros Hne. destruct (exists_last Hne) as [m' [d Hd]]. exists (z ++ m'), d.
  rewrite Hd, app_assoc. split; [reflexivity|]. apply in_or_app. right. left. reflexivity.
Qed.

(** [int(f"{n:05}")] gives back [n], and the column of a row number
    in [0, 99999] is exactly five characters wide. *)
Theorem row_column_roundtrip (n : Z) :
  PyStr.py_int (zero_pad 5 n) = Some n /\
  (0 <= n < 100000 -> String.length (zero_pad 5 n) = 5%nat).
Proof.
  destruct (dec_spec (Z.abs n) ltac:(lia)) as [ds [Hds [Hne [Hall [Hval Hlen]]]]].
  unfold zero_pad. rewrite Hds.
  assert (Hdig : forall z, Forall (fun c => PyStr.is_digit c = true) (repeat "0"%char z ++ ds)).
  { intros z. apply Forall_app. split; [|exact Hall].
    apply List.Forall_forall. intros x Hx. apply repeat_spec in Hx. subst. reflexivity. }
  assert (Hval' : forall z, fold_left (fun acc c => acc * 10 + PyStr.digit_val c)
                              (repeat "0"%char z ++ ds) 0 = Z.abs n).
  { intros z. rewrite fold_left_app, fold_zeros. exact Hval. }
  assert (Hlast : forall z, exists m' d, repeat "0"%char z ++ ds = m' ++ [d] /\ PyStr.is_space d = false).
  { intros z. destruct (last_of_app_nonempty (repeat "0"%char z) ds Hne) as [m' [d [He Hin]]].
    exists m', d. split; [exact He|]. apply ascii_classes. rewrite List.Forall_forall in Hall.
    apply Hall. exact Hin. }
  destruct (n <? 0) eqn:Hneg.
  - apply Z.ltb_lt in Hneg. split; [|lia].
    unfold PyStr.py_int. rewrite list_ascii_of_string_of_list_ascii.
    destruct (Hlast (5 - 1 - length ds)%nat) as [m' [d [He Hd]]].
    rewrite (strip_keep _ "-"%char d (repeat "0"%char (5 - 1 - length ds) ++ ds) eq_refl
               minus_not_space) by (try (exists ("-"%char :: m'); rewrite He; reflexivity); exact Hd).
    simpl Ascii.eqb. cbv iota.
    destruct (repeat "0"%char (5 - 1 - length ds) ++ ds) as [|c t] eqn:Hl.
    { destruct ds; [congruence|]. destruct (repeat _ _); discriminate. }
    rewrite digits_head by (rewrite <- Hl; apply Hdig). cbn [option_map].
    rewrite <- Hl, Hval'. f_equal. lia.
  - apply Z.ltb_ge in Hneg. split.
    + unfold PyStr.py_int. rewrite list_ascii_of_string_of_list_ascii.
      destruct (repeat "0"%char (5 - length ds) ++ ds) as [|c t] eqn:Hl.
      { destruct ds; [congruence|]. destruct (repeat _ _); discriminate. }
      assert (Hc : PyStr.is_digit c = true).
      { assert (H := Hdig (5 - length ds)%nat). rewrite Hl in H. inversion H; assumption. }
      destruct (ascii_classes c Hc) as [Hsp [Hm Hp]].
      destruct (Hlast (5 - length ds)%nat) as [m' [d [He Hd]]]. rewrite Hl in He.
      rewrite (strip_keep (c :: t) c d t eq_refl Hsp) by (try (exists m'; exact He); exact Hd).
      rewrite Hm, Hp. rewrite digits_head by (rewrite <- Hl; apply Hdig).
      rewrite <- Hl, Hval'. f_equal. lia.
    + intros Hr. rewrite length_string_of_list_ascii, length_app, repeat_length.
      assert (Hl5 : (length ds <= 5)%nat)
        by (apply Hlen; [lia | rewrite Z.abs_eq by lia; simpl; lia]).
      lia.
Qed.

Lemma message_views_partition_witness :
  Forall (fun m => known_status (status m) = true) (messages Fixtures.import_sample) /\
  (length (progress_messages Fixtures.import_sample) + length (comment_messages Fixtures.import_sample) +
   length (success_messages Fixtures.import_sample) + length (warning_messages Fixtures.import_sample) +
   length (error_messages Fixtures.import_sample))%nat = length (messages Fixtures.import_sample).
Proof.
  split; [repeat constructor|].
  apply (message_views_partition Fixtures.import_sample). repeat constructor.
Defined.

Lemma element_views_partition_witness :
  Forall (fun el => eq_str (action el) "Add" || eq_str (action el) "Update" = true)
    (elements Fixtures.import_sample) /\
  (length (added_elements Fixtures.import_sample) + length (updated_elements Fixtures.import_sample))%nat
    = length (elements Fixtures.import_sample).
Proof.
  split; [repeat constructor|].
  apply (element_views_partition Fixtures.import_sample). repeat constructor.
Defined.

Lemma row_column_roundtrip_witness :
  0 <= 42 < 100000 /\ String.length (zero_pad 5 42) = 5%nat.
Proof.
  split; [lia|]. exact (proj2 (row_column_roundtrip 42) ltac:(lia)).
Defined.

End RenderProofs.

(* ------------------------------------------------------------------ *)
(** * Parsing of Import and Export responses *)

Module ParseProofs.
Import Results Props.

Lemma getattr_some v k x : getattr v k = Ok x -> sattr v k = Some x.
Proof. unfold getattr. destruct (sattr v k); cbn [of_option]; congruence. Qed.

Section ImportParse.
Variable T : Type.
Variable fromiso : string -> option T.
Variable srepr sstr : sval -> string.

Lemma import_messages_inv ms r0 tr el acc out tr' el' :
  import_messages T fromiso ms r0 tr el acc = Ok (out, tr', el') ->
  exists new, out = acc ++ new /\ Forall2 (message_of fromiso) ms new /\ rows_follow r0 new.
Proof.
  revert r0 tr el acc. induction ms as [|msg t IH]; intros r0 tr el acc H.
  - simpl in H. inversion H; subst. exists []. rewrite app_nil_r. repeat constructor.
  - cbn [import_messages] in H.
    destruct (getattr msg "_Result") as [result|x] eqn:Hr; cbn [res_bind] in H; [|discriminate].
    destruct (if eq_str result "Progress" then _ else _) as [[[row1 tr1] el1]|x] eqn:Hs;
      cbn [res_bind] in H; [|discriminate].
    destruct (getattr msg "_Time") as [tm|x] eqn:Ht; cbn [res_bind] in H; [|discriminate].
    destruct (getattr msg "value") as [value|x] eqn:Hv; cbn [res_bind] in H; [|discriminate].
    destruct (make_message T fromiso tm result value row1) as [m|x] eqn:Hm;
      cbn [res_bind] in H; [|discriminate].
    destruct (IH _ _ _ _ H) as [new [Hout [HF Hrows]]].
    unfold make_message in Hm. destruct tm as [s| |]; try discriminate.
    destruct (fromiso s) as [tt'|] eqn:Hf; cbn [of_option res_bind] in Hm; [|discriminate].
    inversion Hm; subst m. clear Hm.
    exists (mk_message T tt' result value row1 :: new). split.
    { rewrite Hout, <- app_assoc. reflexivity. }
    split.
    + constructor; [|exact HF]. unfold message_of. cbn [status message time].
      rewrite (getattr_some _ _ _ Hr), (getattr_some _ _ _ Hv).
      split; [reflexivity|]. split; [reflexivity|].
      exists s. split; [exact (getattr_some _ _ _ Ht)|exact Hf].
    + cbn [rows_follow row]. split; [|exact Hrows].
      unfold counter. cbn [status message row].
      destruct (eq_str result "Progress"); cbn [andb].
      * cbn [res_bind] in Hs.
        destruct (py_in "Processing row :" value).
        -- destruct (int_from 17 value) as [n|x]; cbn [res_bind] in Hs; [|discriminate].
           inversion Hs. reflexivity.
        -- destruct (py_in "Total rows imported:" value).
           ++ destruct (int_from 21 value); cbn [res_bind] in Hs; [|discriminate].
              inversion Hs. reflexivity.
           ++ destruct (py_in "Total time (ms):" value).
              ** destruct (int_from 17 value); cbn [res_bind] in Hs; [|discriminate].
                 destruct (timedelta_ms _); cbn [res_bind] in Hs; [|discriminate].
                 inversion Hs. reflexivity.
              ** inversion Hs. reflexivity.
      * inversion Hs. reflexivity.
Qed.

Lemma import_messages_prefix pre r0 tr el acc out :
  import_messages T fromiso pre r0 tr el acc = Ok out ->
  exists r1 tr1 el1 acc1, forall post,
    import_messages T fromiso (pre ++ post) r0 tr el acc =
    import_messages T fromiso post r1 tr1 el1 acc1.
Proof.
  revert r0 tr el acc. induction pre as [|msg t IH]; intros r0 tr el acc H.
  - exists r0, tr, el, acc. intros post. reflexivity.
  - cbn [import_messages app] in H |- *.
    destruct (getattr msg "_Result") as [result|x]; cbn [res_bind] in H |- *; [|discriminate].
    destruct (if eq_str result "Progress" then _ else _) as [[[row1 tr1] el1]|x];
      cbn [res_bind] in H |- *; [|discriminate].
    destruct (getattr msg "_Time") as [tm|x]; cbn [res_bind] in H |- *; [|discriminate].
    destruct (getattr msg "value") as [value|x]; cbn [res_bind] in H |- *; [|discriminate].
    destruct (make_message T fromiso tm result value row1) as [m|x];
      cbn [res_bind] in H |- *; [|discriminate].
    exact (IH _ _ _ _ H).
Qed.

(** The failure of a Message node does not depend on the loop state. *)
Lemma import_messages_head_error msg post r0 tr el acc r0' tr' el' acc' x :
  import_messages T fromiso [msg] r0 tr el acc = Err x ->
  import_messages T fromiso (msg :: post) r0' tr' el' acc' = Err x.
Proof.
  cbn [import_messages].
  unfold getattr, make_message, int_from, timedelta_ms. unfold of_option, res_bind.
  destruct (sattr msg "_Result") as [result|]; [|trivial].
  destruct (eq_str result "Progress").
  - destruct (sattr msg "value") as [value|]; [|trivial].
    destruct (py_in "Processing row :" value);
      [|destruct (py_in "Total rows imported:" value);
        [|destruct (py_in "Total time (ms):" value)]];
      repeat match goal with
             | |- context [match ?v with SText _ => _ | SObj _ => _ | SList _ => _ end] =>
                 destruct v
             | |- context [match ?o with Some _ => _ | None => _ end] => destruct o
             | |- context [if ?b then _ else _] => destruct b
             end; cbn [import_messages]; congruence.
  - destruct (sattr msg "_Time") as [tm|]; [|trivial].
    destruct (sattr msg "value") as [value|]; [|trivial].
    destruct tm as [s| |]; [|trivial..].
    destruct (fromiso s); cbn [import_messages]; congruence.
Qed.

Lemma import_elements_inv es out :
  import_elements es = Ok out -> Forall2 element_of es out.
Proof.
  unfold import_elements.
  assert (G : forall acc, res_fold (fun acc elem =>
      let* a := getattr elem "_Action" in
      let* i := getattr elem "_ID" in
      let* fk := getattr elem "_ForeignKey" in
      Ok (acc ++ [mk_element a i fk])) acc es = Ok out ->
    exists new, out = acc ++ new /\ Forall2 element_of es new).
  { induction es as [|elem t IH]; intros acc H.
    - cbn [res_fold] in H. inversion H. exists []. rewrite app_nil_r. split; [reflexivity|constructor].
    - cbn [res_fold] in H.
      destruct (getattr elem "_Action") as [a|x] eqn:Ha; cbn [res_bind] in H; [|discriminate].
      destruct (getattr elem "_ID") as [i|x] eqn:Hi; cbn [res_bind] in H; [|discriminate].
      destruct (getattr elem "_ForeignKey") as [fk|x] eqn:Hk; cbn [res_bind] in H; [|discriminate].
      destruct (IH _ H) as [new [-> HF]].
      exists (mk_element a i fk :: new). rewrite <- app_assoc. split; [reflexivity|].
      constructor; [|exact HF]. unfold element_of. cbn [action id foreign_key].
      rewrite (getattr_some _ _ _ Ha), (getattr_some _ _ _ Hi), (getattr_some _ _ _ Hk).
      repeat split. }
  intros H. destruct (G [] H) as [new [-> HF]]. exact HF.
Qed.

(** The Import branch of [ImportResult.from_suds]. *)
Lemma import_from_suds_import v imp r :
  import_from_suds T fromiso srepr sstr (Some v) = Ok r ->
  sattr v "Import" = Some imp ->
  (exists out, match sattr imp "Message" with
               | Some mv => import_messages T fromiso (py_iter mv) 0 None None [] = Ok out
               | None => out = ([], None, None)
               end /\ messages r = out.1.1) /\
  match sattr imp "Elements" with
  | Some ev => if (0 <? py_len ev)%nat
               then exists g, py_index0 ev = Ok g /\ import_elements (py_iter g) = Ok (elements r)
               else elements r = []
  | None => elements r = []
  end.
Proof.
  intros H HI. unfold import_from_suds in H.
  destruct (handle_suds_response_errors sstr (Some v) base0) as [b|x]; cbn [res_bind] in H; [|discriminate].
  rewrite HI in H.
  destruct (match sattr imp "Message" with
            | Some mv => import_messages T fromiso (py_iter mv) 0 None None []
            | None => Ok ([], None, None) end) as [[[msgs tr] el]|x] eqn:Hm;
    cbn [res_bind] in H; [|discriminate].
  destruct (match sattr imp "Elements" with
            | Some ev => if (0 <? py_len ev)%nat
                         then let* g := py_index0 ev in import_elements (py_iter g) else Ok []
            | None => Ok [] end) as [els|x] eqn:He;
    cbn [res_bind] in H; [|discriminate].
  inversion H; subst r; clear H. cbn [messages elements]. split.
  - exists (msgs, tr, el). split; [|reflexivity].
    destruct (sattr imp "Message"); [exact Hm | inversion Hm; reflexivity].
  - destruct (sattr imp "Elements") as [ev|]; [|inversion He; reflexivity].
    destruct (0 <? py_len ev)%nat; [|inversion He; reflexivity].
    destruct (py_index0 ev) as [g|x]; cbn [res_bind] in He; [|discriminate].
    exists g. split; [reflexivity|exact He].
Qed.

(** Without an Import in the response, no message is kept. *)
Lemma import_from_suds_no_import rsp r :
  import_from_suds T fromiso srepr sstr rsp = Ok r ->
  match rsp with Some v => sattr v "Import" = None | None => True end ->
  messages r = [] /\ elements r = [].
Proof.
  intros H HI. unfold import_from_suds in H.
  destruct (handle_suds_response_errors sstr rsp base0) as [b|x]; cbn [res_bind] in H; [|discriminate].
  destruct rsp as [v|].
  - rewrite HI in H. cbn [res_bind] in H. inversion H. split; reflexivity.
  - cbn [res_bind] in H. inversion H. split; reflexivity.
Qed.

(** [ImportResult.from_suds] keeps one [ImportMessage] per [Message]
    node of the Import, in the order of the nodes: its status is the
    node's [_Result], its message the node's [value] and its time
    [fromisoformat] of the node's [_Time] text; without a [Message], the
    list is empty. *)
Theorem import_messages_copied v imp r :
  import_from_suds T fromiso srepr sstr (Some v) = Ok r ->
  sattr v "Import" = Some imp ->
  match sattr imp "Message" with
  | Some mv => Forall2 (message_of fromiso) (py_iter mv) (messages r)
  | None => messages r = []
  end.
Proof.
  intros H HI. destruct (import_from_suds_import v imp r H HI) as [[out [Hm ->]] _].
  destruct (sattr imp "Message") as [mv|].
  - destruct out as [[msgs tr] el].
    destruct (import_messages_inv _ _ _ _ _ _ _ _ Hm) as [new [-> [HF _]]]. exact HF.
  - subst out. reflexivity.
Qed.

(** The rows of the messages follow the row counters: a Progress message
    whose text contains "Processing row :" carries [int] of its text from
    the 18th character on, every other message the row of the message
    before it, and the first one row 0 unless it is a counter. *)
Theorem import_rows_follow rsp r :
  import_from_suds T fromiso srepr sstr rsp = Ok r -> rows_follow 0 (messages r).
Proof.
  intros H. destruct rsp as [v|].
  - destruct (sattr v "Import") as [imp|] eqn:HI.
    + destruct (import_from_suds_import v imp r H HI) as [[out [Hm ->]] _].
      destruct (sattr imp "Message") as [mv|].
      * destruct out as [[msgs tr] el].
        destruct (import_messages_inv _ _ _ _ _ _ _ _ Hm) as [new [-> [_ Hr]]]. exact Hr.
      * subst out. exact I.
    + rewrite (proj1 (import_from_suds_no_import _ _ H HI)). exact I.
  - rewrite (proj1 (import_from_suds_no_import _ _ H I)). exact I.
Qed.

(** The elements come from the first group of [Import.Elements] only, one
    [ImportElement] per node in order with its [_Action], [_ID] and
    [_ForeignKey]; the other groups are ignored, and no group gives no
    element. *)
Theorem import_elements_first_group v imp gs r :
  import_from_suds T fromiso srepr sstr (Some v) = Ok r ->
  sattr v "Import" = Some imp ->
  sattr imp "Elements" = Some (SList gs) ->
  Forall2 element_of (match gs with [] => [] | g :: _ => py_iter g end) (elements r).
Proof.
  intros H HI HE. destruct (import_from_suds_import v imp r H HI) as [_ He].
  rewrite HE in He. destruct gs as [|g gs].
  - cbn in He. rewrite He. constructor.
  - cbn [py_len length Nat.ltb Nat.leb py_index0] in He. destruct He as [g' [Hg He]].
    inversion Hg; subst g'. apply import_elements_inv. exact He.
Qed.

(** A Message node that fails on its own makes the whole
    [ImportResult.from_suds] fail with the same exception, once the nodes
    before it parse: no partial result is returned. *)
Theorem import_message_error v imp mv pre msg post x :
  sattr v "Export" = None ->
  sattr v "Import" = Some imp ->
  sattr imp "Message" = Some mv ->
  py_iter mv = pre ++ msg :: post ->
  (exists out, import_messages T fromiso pre 0 None None [] = Ok out) ->
  import_messages T fromiso [msg] 0 None None [] = Err x ->
  import_from_suds T fromiso srepr sstr (Some v) = Err x.
Proof.
  intros HX HI HM Hit [out Hpre] Hmsg.
  destruct (import_messages_prefix _ _ _ _ _ _ Hpre) as [r1 [tr1 [el1 [acc1 Hp]]]].
  unfold import_from_suds, handle_suds_response_errors. rewrite HX.
  cbn [res_bind]. rewrite HI, HM, Hit, Hp.
  rewrite (import_messages_head_error msg post 0 None None [] r1 tr1 el1 acc1 x Hmsg).
  reflexivity.
Qed.

(** A row counter whose text after the 17th character is no integer
    makes [ImportResult.from_suds] raise ValueError, once the nodes before
    it parse. *)
Theorem import_bad_row_counter v imp mv pre msg post s :
  sattr v "Export" = None ->
  sattr v "Import" = Some imp ->
  sattr imp "Message" = Some mv ->
  py_iter mv = pre ++ msg :: post ->
  (exists out, import_messages T fromiso pre 0 None None [] = Ok out) ->
  sattr msg "_Result" = Some (SText "Progress") ->
  sattr msg "value" = Some (SText s) ->
  PyStr.contains "Processing row :" s = true ->
  PyStr.py_int (PyStr.drop 17 s) = None ->
  import_from_suds T fromiso srepr sstr (Some v) = Err ValueError.
Proof.
  intros HX HI HM Hit [out Hpre] Hr Hv Hc Hn.
  destruct (import_messages_prefix _ _ _ _ _ _ Hpre) as [r1 [tr1 [el1 [acc1 Hp]]]].
  unfold import_from_suds, handle_suds_response_errors. rewrite HX.
  cbn [res_bind]. rewrite HI, HM, Hit, Hp.
  cbn [import_messages]. unfold getattr. rewrite Hr. cbn [of_option res_bind eq_str].
  rewrite Hv. cbn [of_option res_bind py_in String.eqb]. rewrite Hc.
  unfold int_from. rewrite Hn. reflexivity.
Qed.

End ImportParse.

Lemma assoc_dict_set {V} (k k' : string) (v : V) d :
  assoc k (dict_set k' v d) = if String.eqb k k' then Some v else assoc k d.
Proof.
  induction d as [|[k'' v'] t IH]; cbn [dict_set assoc]; [reflexivity|].
  destruct (String.eqb k' k'') eqn:E.
  - apply String.eqb_eq in E. subst k''. cbn [assoc]. destruct (String.eqb k k'); reflexivity.
  - cbn [assoc]. rewrite IH. destruct (String.eqb k k') eqn:E1; [|reflexivity].
    apply String.eqb_eq in E1. subst k'. rewrite E. reflexivity.
Qed.

Lemma dict_set_keys {V} (k k' : string) (v : V) d :
  In k (map fst (dict_set k' v d)) <-> k = k' \/ In k (map fst d).
Proof.
  induction d as [|[k'' v'] t IH]; cbn [dict_set map fst]; [cbn; intuition congruence|].
  destruct (String.eqb k' k'') eqn:E.
  - apply String.eqb_eq in E. subst k''. cbn [map fst In]. intuition congruence.
  - cbn [map fst In]. rewrite IH. intuition congruence.
Qed.

Lemma dict_set_nodup {V} (k' : string) (v : V) d :
  List.NoDup (map fst d) -> List.NoDup (map fst (dict_set k' v d)).
Proof.
  induction d as [|[k'' v'] t IH]; cbn [dict_set map fst]; intros H.
  - cbn. constructor; [intros []|constructor].
  - inversion H as [|? ? Hn Ht]; subst.
    destruct (String.eqb k' k'') eqn:E.
    + apply String.eqb_eq in E. subst k''. cbn [map fst]. constructor; assumption.
    + cbn [map fst]. constructor; [|exact (IH Ht)].
      rewrite dict_set_keys. intros [Heq|Hin]; [|exact (Hn Hin)].
      subst k''. rewrite String.eqb_refl in E. discriminate.
Qed.

Lemma assoc_in {A} (k : string) (v : A) l : In (k, v) l -> exists v', assoc k l = Some v'.
Proof.
  induction l as [|[k' v'] t IH]; cbn [In assoc]; [intros []|].
  intros [Heq|Hin].
  - inversion Heq; subst. rewrite String.eqb_refl. eauto.
  - destruct (String.eqb k k'); eauto.
Qed.

Lemma assoc_none {A} (k : string) (l : list (string * A)) :
  (forall zf, In zf l -> zf.1 <> k) -> assoc k l = None.
Proof.
  induction l as [|[k' v'] t IH]; cbn [assoc]; intros H; [reflexivity|].
  destruct (String.eqb k k') eqn:E.
  - apply String.eqb_eq in E. subst k'. exfalso. exact (H (k, v') (or_introl eq_refl) eq_refl).
  - apply IH. intros zf Hz. apply H. right. exact Hz.
Qed.

Lemma read_documents_go entries l docs :
  (forall zf, In zf l -> In zf entries) -> List.NoDup (map fst docs) ->
  exists docs',
    res_fold (fun docs zf => let* d := zip_read entries zf.1 in Ok (dict_set zf.1 d docs)) docs l
      = Ok docs' /\
    List.NoDup (map fst docs') /\
    forall k, assoc k docs' = if existsb (fun zf => String.eqb k zf.1) l
                              then assoc k (rev entries) else assoc k docs.
Proof.
  revert docs. induction l as [|zf t IH]; intros docs Hin Hnd.
  - exists docs. split; [reflexivity|]. split; [exact Hnd|]. intros k. reflexivity.
  - cbn [res_fold]. unfold zip_read.
    destruct zf as [name b].
    assert (Hz : In (name, b) (rev entries)) by (apply (proj1 (in_rev _ _)); apply Hin; left; reflexivity).
    destruct (assoc_in _ _ _ Hz) as [d Hd]. cbn [fst]. rewrite Hd. cbn [of_option res_bind].
    destruct (IH (dict_set name d docs)) as [docs' [Hf [Hn Ha]]].
    { intros zf Hzf. apply Hin. right. exact Hzf. }
    { apply dict_set_nodup. exact Hnd. }
    exists docs'. split; [exact Hf|]. split; [exact Hn|].
    intros k. rewrite Ha. cbn [existsb fst]. rewrite assoc_dict_set.
    destruct (existsb (fun zf => String.eqb k zf.1) t); [rewrite orb_true_r; reflexivity|].
    rewrite orb_false_r. destruct (String.eqb k name) eqn:E; [|reflexivity].
    apply String.eqb_eq in E. subst k. symmetry. exact Hd.
Qed.

Lemma read_documents_spec entries :
  exists docs, read_documents entries = Ok docs /\ List.NoDup (map fst docs) /\
    forall k, assoc k docs = assoc k (rev entries).
Proof.
  destruct (read_documents_go entries entries [] (fun zf H => H) (List.NoDup_nil _))
    as [docs [Hf [Hn Ha]]].
  exists docs. split; [exact Hf|]. split; [exact Hn|]. intros k. rewrite Ha.
  destruct (existsb (fun zf => String.eqb k zf.1) entries) eqn:E; [reflexivity|].
  symmetry. apply assoc_none. intros zf Hzf Heq.
  apply (proj2 (in_rev _ _)) in Hzf.
  assert (Hx : existsb (fun zf => String.eqb k zf.1) entries = true)
    by (apply existsb_exists; exists zf; split; [exact Hzf|]; rewrite Heq; apply String.eqb_refl).
  congruence.
Qed.

Section ExportParse.
Variable b64 : string -> option bytes.
Variable zipl : bytes -> option (list (string * bytes)).
Variable srepr sstr : sval -> string.

Lemma handle_errors_ok v :
  (forall e, sattr v "Export" = Some e -> sattr e "_Error" <> None) ->
  exists b, handle_suds_response_errors sstr (Some v) base0 = Ok b.
Proof.
  intros HE. unfold handle_suds_response_errors.
  destruct (sattr v "Export") as [e|] eqn:He; [|eauto].
  destruct (sattr e "_Error") eqn:Hm; [eauto|].
  exfalso. exact (HE e eq_refl Hm).
Qed.

(** For any zip archive in [Report.Documents], [ExportResult.from_suds]
    gives a documents dict with one key per member name, each mapped to
    the bytes of the last member of that name, and no other key. *)
Theorem export_documents_last_member v rep s raw entries :
  (forall e, sattr v "Export" = Some e -> sattr e "_Error" <> None) ->
  sattr v "Report" = Some rep ->
  sattr rep "Documents" = Some (SText s) ->
  b64 s = Some raw ->
  zipl raw = Some entries ->
  exists r,
    export_from_suds b64 zipl srepr sstr (Some v) = Ok r /\
    List.NoDup (map fst (documents r)) /\
    forall k, assoc k (documents r) = assoc k (rev entries).
Proof.
  intros HE HR HD Hb Hz. destruct (handle_errors_ok v HE) as [b Hh].
  destruct (read_documents_spec entries) as [docs [Hf [Hn Ha]]].
  unfold export_from_suds. rewrite Hh. cbn [res_bind]. rewrite HR, HD.
  cbn [of_option res_bind]. rewrite Hb. cbn [of_option res_bind]. rewrite Hz.
  cbn [of_option res_bind]. rewrite Hf. cbn [res_bind].
  eexists. split; [reflexivity|]. cbn [documents]. split; [exact Hn|exact Ha].
Qed.

(** A [Report.Documents] text that is no base64 raises binascii.Error,
    and one that decodes to no zip archive raises BadZipFile: neither is
    turned into [has_error]. *)
Theorem export_corrupt_documents v rep s :
  (forall e, sattr v "Export" = Some e -> sattr e "_Error" <> None) ->
  sattr v "Report" = Some rep ->
  sattr rep "Documents" = Some (SText s) ->
  (b64 s = None -> export_from_suds b64 zipl srepr sstr (Some v) = Err BinasciiError) /\
  (forall raw, b64 s = Some raw -> zipl raw = None ->
     export_from_suds b64 zipl srepr sstr (Some v) = Err BadZipFile).
Proof.
  intros HE HR HD. destruct (handle_errors_ok v HE) as [b Hh].
  unfold export_from_suds. rewrite Hh. cbn [res_bind]. rewrite HR, HD.
  split.
  - intros Hb. cbn [of_option res_bind]. rewrite Hb. reflexivity.
  - intros raw Hb Hz. cbn [of_option res_bind]. rewrite Hb. cbn [of_option res_bind].
    rewrite Hz. reflexivity.
Qed.

End ExportParse.

Section Witnesses.
Import Fixtures Fixtures2.

Lemma import_messages_copied_witness :
  exists r,
    import_from_suds string Some no_str no_str (Some import_response) = Ok r /\
    sattr import_response "Import" = Some import_node /\
    Forall2 (message_of Some) (py_iter (SList [message_node "Progress" "Processing row : 00001" "10:00:00";
                                              message_node "Success" "ok" "10:00:01"])) (messages r).
Proof.
  eexists. split; [vm_compute; reflexivity|]. split; [reflexivity|].
  exact (import_messages_copied string Some no_str no_str import_response import_node _
           ltac:(vm_compute; reflexivity) eq_refl).
Defined.

Lemma import_rows_follow_witness :
  exists r,
    import_from_suds string Some no_str no_str (Some import_response) = Ok r /\
    rows_follow 0 (messages r).
Proof.
  eexists. split; [vm_compute; reflexivity|].
  exact (import_rows_follow string Some no_str no_str (Some import_response) _
           ltac:(vm_compute; reflexivity)).
Defined.

Lemma import_elements_first_group_witness :
  exists r gs,
    import_from_suds string Some no_str no_str (Some import_response) = Ok r /\
    sattr import_response "Import" = Some import_node /\
    sattr import_node "Elements" = Some (SList gs) /\
    Forall2 element_of (match gs with [] => [] | g :: _ => py_iter g end) (elements r).
Proof.
  eexists. eexists. split; [vm_compute; reflexivity|]. split; [reflexivity|].
  split; [vm_compute; reflexivity|].
  exact (import_elements_first_group string Some no_str no_str import_response import_node _ _
           ltac:(vm_compute; reflexivity) eq_refl ltac:(vm_compute; reflexivity)).
Defined.

Lemma import_message_error_witness :
  (exists out, import_messages string Some
                 [message_node "Progress" "Processing row : 00001" "10:00:00"] 0 None None [] = Ok out) /\
  import_messages string Some [bad_counter] 0 None None [] = Err ValueError /\
  import_from_suds string Some no_str no_str (Some bad_import_response) = Err ValueError.
Proof.
  split; [eexists; vm_compute; reflexivity|]. split; [vm_compute; reflexivity|].
  exact (import_message_error string Some no_str no_str bad_import_response bad_import_node
           (SList [message_node "Progress" "Processing row : 00001" "10:00:00";
                   bad_counter; message_node "Success" "ok" "10:00:03"])
           [message_node "Progress" "Processing row : 00001" "10:00:00"] bad_counter
           [message_node "Success" "ok" "10:00:03"] ValueError
           eq_refl eq_refl eq_refl eq_refl
           ltac:(eexists; vm_compute; reflexivity) ltac:(vm_compute; reflexivity)).
Defined.

Lemma import_bad_row_counter_witness :
  PyStr.contains "Processing row :" "Processing row : 12a" = true /\
  PyStr.py_int (PyStr.drop 17 "Processing row : 12a") = None /\
  import_from_suds string Some no_str no_str (Some bad_import_response) = Err ValueError.
Proof.
  split; [vm_compute; reflexivity|]. split; [vm_compute; reflexivity|].
  exact (import_bad_row_counter string Some no_str no_str bad_import_response bad_import_node
           (SList [message_node "Progress" "Processing row : 00001" "10:00:00";
                   bad_counter; message_node "Success" "ok" "10:00:03"])
           [message_node "Progress" "Processing row : 00001" "10:00:00"] bad_counter
           [message_node "Success" "ok" "10:00:03"] "Processing row : 12a"
           eq_refl eq_refl eq_refl eq_refl
           ltac:(eexists; vm_compute; reflexivity) eq_refl eq_refl
           ltac:(vm_compute; reflexivity) ltac:(vm_compute; reflexivity)).
Defined.

Lemma export_documents_last_member_witness :
  exists r,
    export_from_suds (fun _ => Some hello) (fun _ => Some two_a_members) no_str no_str
      (Some report_response) = Ok r /\
    List.NoDup (map fst (documents r)) /\
    assoc "a.txt" (documents r) = Some (list_byte_of_string "new").
Proof.
  destruct (export_documents_last_member (fun _ => Some hello) (fun _ => Some two_a_members)
              no_str no_str report_response report_node "UEsDBA==" hello two_a_members
              ltac:(intros e He; discriminate) eq_refl eq_refl eq_refl eq_refl)
    as [r [Hr [Hn Ha]]].
  exists r. split; [exact Hr|]. split; [exact Hn|]. rewrite Ha. vm_compute. reflexivity.
Defined.

Lemma export_corrupt_documents_witness :
  export_from_suds (fun _ => None) (fun _ => Some []) no_str no_str (Some report_response)
    = Err BinasciiError /\
  export_from_suds (fun _ => Some hello) (fun _ => None) no_str no_str (Some report_response)
    = Err BadZipFile.
Proof.
  split.
  - exact (proj1 (export_corrupt_documents (fun _ => None) (fun _ => Some []) no_str no_str
                    report_response report_node "UEsDBA=="
                    ltac:(intros e He; discriminate) eq_refl eq_refl) eq_refl).
  - exact (proj2 (export_corrupt_documents (fun _ => Some hello) (fun _ => None) no_str no_str
                    report_response report_node "UEsDBA=="
                    ltac:(intros e He; discriminate) eq_refl eq_refl) hello eq_refl eq_refl).
Defined.

End Witnesses.

End ParseProofs.

(* ------------------------------------------------------------------ *)
(** * Requests and side effects of the client *)

Module ClientMore.
Import Client Fixtures Props ClientProofs.

Lemma keep_bind {A B} (m : M A) (k : A -> M B) :
  keeps_cred_trace m -> (forall a, keeps_cred_trace (k a)) -> keeps_cred_trace (mbind m k).
Proof.
  intros Hm Hk e w. unfold mbind. destruct (Hm e w) as [H1 H2].
  destruct (m e w) as [w1 [a|x]]; simpl in *.
  - destruct (Hk a e w1) as [G1 G2]. split; congruence.
  - split; assumption.
Qed.

Lemma keep_ret {A} (a : A) : keeps_cred_trace (mret a).
Proof. intros e w. split; reflexivity. Qed.

Lemma keep_raise {A} (x : exc) : keeps_cred_trace (A := A) (raise x).
Proof. intros e w. split; reflexivity. Qed.

Lemma keep_lift {A} (r : res A) : keeps_cred_trace (lift r).
Proof. intros e w. split; reflexivity. Qed.

Lemma keep_ask {A} (f : env -> A) : keeps_cred_trace (ask f).
Proof. intros e w. split; reflexivity. Qed.

Lemma keep_gets {A} (f : world -> A) : keeps_cred_trace (gets f).
Proof. intros e w. split; reflexivity. Qed.

Lemma keep_write_file p c : keeps_cred_trace (write_file p c).
Proof. intros e w. split; reflexivity. Qed.

Lemma keep_read_file p : keeps_cred_trace (read_file p).
Proof. apply keep_bind; [apply keep_gets|]. intros f. apply keep_lift. Qed.

Lemma keep_remove_file p : keeps_cred_trace (remove_file p).
Proof.
  apply keep_bind; [apply keep_gets|]. intros f.
  destruct (f !! p); [intros e w; split; reflexivity | apply keep_raise].
Qed.

Create HintDb keeps.
#[local] Hint Resolve keep_bind keep_ret keep_raise keep_lift keep_ask keep_gets
  keep_write_file keep_read_file keep_remove_file : keeps.

Section Payload.
Variable xml_str : list (list (string * string)) -> string.
Variable zip_bytes : list (string * string) -> string.
Variable b64encode : string -> string.

Lemma keep_zip_add zp entries a c : keeps_cred_trace (zip_add zip_bytes zp entries a c).
Proof. unfold zip_add. auto with keeps. Qed.
#[local] Hint Resolve keep_zip_add : keeps.

Lemma keep_zip_documents zp entries docs : keeps_cred_trace (zip_documents zip_bytes zp entries docs).
Proof.
  revert entries. induction docs as [|d t IH]; intros entries; cbn [zip_documents];
    [apply keep_ret|].
  apply keep_bind; [apply keep_read_file|]. intros c.
  apply keep_bind; [apply keep_zip_add|]. intros ent. apply IH.
Qed.
#[local] Hint Resolve keep_zip_documents : keeps.

Lemma keep_encode_with basename ext data docs keep :
  keeps_cred_trace (encode_with_documents xml_str zip_bytes b64encode basename ext data docs keep).
Proof.
  unfold encode_with_documents.
  apply keep_bind; [apply keep_ask|]. intros tmp.
  apply keep_bind; [apply keep_write_file|]. intros [].
  apply keep_bind; [apply keep_zip_documents|]. intros ent.
  apply keep_bind; [destruct data; auto with keeps|]. intros ent2.
  apply keep_bind; [apply keep_read_file|]. intros z.
  apply keep_bind; [apply keep_remove_file|]. intros []. apply keep_ret.
Qed.

Lemma keep_encode_without ext data :
  keeps_cred_trace (encode_without_documents xml_str b64encode ext data).
Proof. unfold encode_without_documents. destruct data; auto with keeps. Qed.

End Payload.

(** [get_token] sends no request, or exactly the one [retrieve_token]
    sends. *)
Lemma get_token_trace_cases h force ua e w :
  trace (get_token h force ua e w).1 = trace w \/
  trace (get_token h force ua e w).1 = trace w ++ [token_request w h ua].
Proof.
  unfold get_token. mstep.
  destruct (force || match tokens (cred w) !! h with
                     | Some ent => td_seconds (expires_on ent - now e) <=? 300
                     | None => true end).
  - right. pose proof (retrieve_token_trace h ua e w) as Ht.
    destruct (retrieve_token h ua e w) as [w1 [[]|x]]; simpl in *; [|exact Ht].
    destruct (tokens (cred w1) !! h); exact Ht.
  - left. destruct (tokens (cred w) !! h); reflexivity.
Qed.

Lemma token_request_cred w w' h ua : cred w' = cred w -> token_request w' h ua = token_request w h ua.
Proof. unfold token_request. intros ->. reflexivity. Qed.

Lemma mbind_ok_inv {A B} (m : M A) (k : A -> M B) e w w' b :
  mbind m k e w = (w', Ok b) -> exists w1 a, m e w = (w1, Ok a) /\ k a e w1 = (w', Ok b).
Proof.
  unfold mbind. destruct (m e w) as [w1 [a|x]]; [|discriminate]. intros H. eauto.
Qed.

Lemma mret_inv {A} (a b : A) e w w' : mret a e w = (w', Ok b) -> w' = w /\ a = b.
Proof. unfold mret. intros H. inversion H. split; reflexivity. Qed.

(** The authentication header and the [Import] call that end
    [run_import]. *)
Lemma run_import_tail_trace (h op fname data_str : string) (auth : authentication) e w w' r :
  (let entrycode := match auth with AuthEntrycode c => Some c | _ => None end in
   let! bearer :=
     match auth with
     | AuthCred => let! t := get_token h false USER_AGENT in mret (Some t)
     | _ => mret None
     end in
   let! _ := emit (SoapImport op fname data_str entrycode bearer) in
   let! r := ask import_reply in lift r) e w = (w', Ok r) ->
  import_reply e = Ok r /\
  exists tk bearer,
    trace w' = trace w ++ tk ++
      [SoapImport op fname data_str (match auth with AuthEntrycode c => Some c | _ => None end) bearer] /\
    match auth with
    | AuthCred => (tk = [] \/ tk = [token_request w h USER_AGENT]) /\ bearer <> None
    | _ => tk = [] /\ bearer = None
    end.
Proof.
  cbv zeta. intros H.
  apply mbind_ok_inv in H as [w3 [bearer [Hb H]]].
  apply mbind_ok_inv in H as [w4 [[] [He H]]].
  apply mbind_ok_inv in H as [w5 [r' [Ha H]]].
  unfold ask in Ha. inversion Ha; subst w5 r'. unfold lift in H. inversion H; subst w'.
  split; [reflexivity|].
  unfold emit, modify in He. inversion He; subst w4. cbn [trace].
  destruct auth as [|c|].
  - apply mret_inv in Hb as [-> <-]. exists [], None. split; [reflexivity|]. split; reflexivity.
  - apply mret_inv in Hb as [-> <-]. exists [], None. split; [reflexivity|]. split; reflexivity.
  - apply mbind_ok_inv in Hb as [w6 [t [Hg Hb]]]. apply mret_inv in Hb as [-> <-].
    destruct (get_token_trace_cases h false USER_AGENT e w) as [Ht|Ht]; rewrite Hg in Ht;
      cbn [fst] in Ht.
    + exists [], (Some t). rewrite Ht. split; [reflexivity|]. split; [left; reflexivity|discriminate].
    + exists [token_request w h USER_AGENT], (Some t). rewrite Ht, <- app_assoc.
      split; [reflexivity|]. split; [right; reflexivity|discriminate].
Qed.

Section Requests.
Variable xml_str : list (list (string * string)) -> string.
Variable zip_bytes : list (string * string) -> string.
Variable b64encode : string -> string.

Lemma encode_with_ext basename ext data docs keep e w w' ds ext' :
  encode_with_documents xml_str zip_bytes b64encode basename ext data docs keep e w = (w', Ok (ds, ext')) ->
  ext' = "zip"%string.
Proof.
  unfold encode_with_documents. intros H.
  do 6 (apply mbind_ok_inv in H as [? [? [_ H]]]).
  apply mret_inv in H as [_ H]. inversion H. reflexivity.
Qed.

Lemma encode_without_payload ext data e w w' ds ext' :
  encode_without_documents xml_str b64encode ext data e w = (w', Ok (ds, ext')) ->
  ext' = ext /\
  match data with
  | DRows rows => ds = b64encode (xml_str rows)
  | DPath p => exists c, fs w !! p = Some c /\ ds = b64encode c
  | DOther _ => False
  end.
Proof.
  unfold encode_without_documents. destruct data as [rows|p|b]; intros H.
  - apply mret_inv in H as [_ H]. inversion H. split; reflexivity.
  - apply mbind_ok_inv in H as [w1 [c [Hr H]]]. apply mret_inv in H as [_ H]. inversion H; subst.
    split; [reflexivity|]. exists c. split; [|reflexivity].
    unfold read_file in Hr. apply mbind_ok_inv in Hr as [w2 [f [Hf Hr]]].
    unfold gets in Hf. injection Hf as <- <-. unfold lift, of_option in Hr.
    destruct (fs w !! p); inversion Hr. reflexivity.
  - unfold raise in H. discriminate.
Qed.

(** A successful [run_import] sends, after the requests already made, the
    WSDL download, at most one token request (only with a credential
    object, which also gives a bearer token) and the [Import] call, in
    this order, and returns the answer of that call. Its file name is
    the base name with the extension of the payload: [zip] when documents
    are given, otherwise that of the data, whose base64 text is the one of
    the generated XML or of the data file. *)
Theorem run_import_request_sequence (ws : webservices) (op : string) (data : import_data)
    (auth : authentication) (fn : option string) (docs : option (list string)) (keep : bool)
    (e : env) (w w' : world) (r : option sval) :
  run_import xml_str zip_bytes b64encode ws op data auth fn docs keep e w = (w', Ok r) ->
  import_reply e = Ok r /\
  exists data_str ext tk bearer,
    trace w' = trace w ++ [WsdlFetch (wsdl_url ws)] ++ tk ++
      [SoapImport op (file_basename fn ++ "." ++ ext) data_str
         (match auth with AuthEntrycode c => Some c | _ => None end) bearer] /\
    match auth with
    | AuthCred => (tk = [] \/ tk = [token_request w (ws_hostname ws) USER_AGENT]) /\ bearer <> None
    | _ => tk = [] /\ bearer = None
    end /\
    match docs with
    | Some _ => ext = "zip"%string
    | None =>
        data_extension data = Ok ext /\
        match data with
        | DRows rows => data_str = b64encode (xml_str rows)
        | DPath p => exists c, fs w !! p = Some c /\ data_str = b64encode c
        | DOther _ => False
        end
    end.
Proof.
  unfold run_import. intros H.
  destruct (String.eqb op ""); [unfold raise in H; discriminate|].
  destruct (data_truthy data); cbn [negb] in H; [|unfold raise in H; discriminate].
  apply mbind_ok_inv in H as [w1 [[] [Hnc H]]].
  assert (Hw1 : cred w1 = cred w /\ fs w1 = fs w /\ trace w1 = trace w ++ [WsdlFetch (wsdl_url ws)]).
  { unfold new_client in Hnc. apply mbind_ok_inv in Hnc as [w0 [[] [Hem Hnc]]].
    unfold emit, modify in Hem. inversion Hem; subst w0.
    apply mbind_ok_inv in Hnc as [w5 [rr [Ha Hl]]]. unfold ask in Ha. inversion Ha; subst.
    unfold lift in Hl. inversion Hl; subst. repeat split. }
  destruct Hw1 as [Hc1 [Hf1 Ht1]].
  apply mbind_ok_inv in H as [w1' [ext [Hx H]]]. unfold lift in Hx. injection Hx as <- Hext.
  apply mbind_ok_inv in H as [w2 [[ds ext'] [Henc H]]].
  assert (Hk : cred w2 = cred w1 /\ trace w2 = trace w1).
  { destruct docs as [ds0|].
    - pose proof (keep_encode_with xml_str zip_bytes b64encode (file_basename fn) ext data ds0 keep e w1) as K.
      rewrite Henc in K. exact K.
    - pose proof (keep_encode_without xml_str b64encode ext data e w1) as K.
      rewrite Henc in K. exact K. }
  destruct Hk as [Hc2 Ht2]. cbv beta iota in H.
  destruct (run_import_tail_trace _ _ _ _ _ _ _ _ _ H) as [Hr [tk [bearer [Htr Hauth]]]].
  split; [exact Hr|].
  exists ds, ext', tk, bearer. split.
  { rewrite Htr, Ht2, Ht1, <- !app_assoc. reflexivity. }
  split.
  { rewrite (token_request_cred w w2) in Hauth by congruence. exact Hauth. }
  destruct docs as [ds0|].
  - exact (encode_with_ext _ _ _ _ _ _ _ _ _ _ Henc).
  - destruct (encode_without_payload _ _ _ _ _ _ _ Henc) as [-> Hp].
    split; [exact Hext|]. rewrite <- Hf1. exact Hp.
Qed.

Lemma mbind_fs {A B} (m : M A) (k : A -> M B) e w :
  (forall e w, fs (m e w).1 = fs w) -> (forall a e w, fs (k a e w).1 = fs w) ->
  fs (mbind m k e w).1 = fs w.
Proof.
  intros Hm Hk. unfold mbind. specialize (Hm e w).
  destruct (m e w) as [w1 [a|x]]; simpl in *; [rewrite Hk|]; exact Hm.
Qed.

(** Without documents, [run_import] writes, replaces and removes no file,
    whatever its outcome. *)
Theorem run_import_no_documents_fs (ws : webservices) (op : string) (data : import_data)
    (auth : authentication) (fn : option string) (keep : bool) (e : env) (w : world) :
  fs (run_import xml_str zip_bytes b64encode ws op data auth fn None keep e w).1 = fs w.
Proof.
  unfold run_import.
  destruct (String.eqb op ""); [reflexivity|].
  destruct (data_truthy data); cbn [negb]; [|reflexivity].
  apply mbind_fs; [intros e' w'; unfold new_client; mstep; destruct (wsdl_reply e'); reflexivity|].
  intros [] e1 w1. apply mbind_fs; [intros e' w'; reflexivity|].
  intros ext e2 w2. apply mbind_fs.
  - intros e' w'. unfold encode_without_documents. destruct data as [rows|p|b]; [reflexivity| |reflexivity].
    unfold read_file. mstep. destruct (fs w' !! p); reflexivity.
  - intros [ds ext'] e3 w3. apply run_import_tail_fs.
Qed.

End Requests.

(** A failed [retrieve_token] has sent its one request and changed
    nothing else: the cached tokens (a stale one included), the
    credentials and the files are as before. *)
Theorem retrieve_token_failure_atomic h ua e w w' x :
  retrieve_token h ua e w = (w', Err x) ->
  cred w' = cred w /\ fs w' = fs w /\ trace w' = trace w ++ [token_request w h ua].
Proof.
  intros H. pose proof (retrieve_token_trace h ua e w) as Ht. rewrite H in Ht. cbn [fst] in Ht.
  split; [|split; [|exact Ht]].
  - unfold retrieve_token in H. mstep.
    destruct (token_reply e h) as [resp|y]; simpl in H; [|injection H as <- _; reflexivity].
    destruct (resp !! "error"%string); [destruct (resp !! "error_description"%string)|];
      simpl in H; try (injection H as <- _; reflexivity).
    destruct (resp !! "access_token"%string) as [tok|]; simpl in H; [|injection H as <- _; reflexivity].
    destruct (resp !! "expires_in"%string) as [ei|]; simpl in H; [|injection H as <- _; reflexivity].
    destruct (timedelta_s ei) as [d|y]; simpl in H; [|injection H as <- _; reflexivity].
    destruct (dt_add (now e) d) as [exp|y]; simpl in H; [discriminate|injection H as <- _; reflexivity].
  - pose proof (retrieve_token_frame h ua e w) as [_ Hf]. rewrite H in Hf. exact Hf.
Qed.

(** A token response with an [error] key makes [retrieve_token] raise
    RuntimeError, or KeyError when it has no [error_description], even
    if it also holds an [access_token]. *)
Theorem retrieve_token_error_response h ua e w resp v :
  token_reply e h = Ok resp ->
  resp !! "error"%string = Some v ->
  (retrieve_token h ua e w).2 =
    Err (if resp !! "error_description"%string then RuntimeError else KeyError).
Proof.
  intros Hr He. unfold retrieve_token. mstep. rewrite Hr. simpl. rewrite He.
  destruct (resp !! "error_description"%string); reflexivity.
Qed.

Lemma retrieve_token_ok_entry h ua e w w1 :
  retrieve_token h ua e w = (w1, Ok tt) -> exists ent, tokens (cred w1) !! h = Some ent.
Proof.
  unfold retrieve_token. mstep.
  destruct (token_reply e h) as [resp|y]; simpl; [|discriminate].
  destruct (resp !! "error"%string); [destruct (resp !! "error_description"%string)|];
    simpl; try discriminate.
  destruct (resp !! "access_token"%string) as [tok|]; simpl; [|discriminate].
  destruct (resp !! "expires_in"%string) as [ei|]; simpl; [|discriminate].
  destruct (timedelta_s ei) as [d|y]; simpl; [|discriminate].
  destruct (dt_add (now e) d) as [exp|y]; simpl; [|discriminate].
  intros H. injection H as <-. unfold set_tokens. simpl. rewrite lookup_insert_eq. eauto.
Qed.

(** [get_token] raises only when the token request it sends fails, with
    that exception and state: the final [self.tokens[hostname]] lookup
    never fails, and a failed refresh leaves the credential object and
    the files as they were. *)
Theorem get_token_failure h force ua e w w' x :
  get_token h force ua e w = (w', Err x) ->
  retrieve_token h ua e w = (w', Err x) /\ cred w' = cred w /\ fs w' = fs w.
Proof.
  intros H.
  assert (Hr : retrieve_token h ua e w = (w', Err x)).
  { unfold get_token in H. mstep.
    destruct (force || match tokens (cred w) !! h with
                       | Some ent => td_seconds (expires_on ent - now e) <=? 300
                       | None => true end) eqn:Hc.
    - destruct (retrieve_token h ua e w) as [w1 [[]|y]] eqn:Hrt; simpl in H;
        [|injection H as -> ->; reflexivity].
      destruct (retrieve_token_ok_entry h ua e w w1 Hrt) as [ent Hent].
      rewrite Hent in H. discriminate.
    - destruct (tokens (cred w) !! h); [discriminate|].
      rewrite orb_true_r in Hc. discriminate. }
  split; [exact Hr|]. destruct (retrieve_token_failure_atomic h ua e w w' x Hr) as [Hc [Hf _]].
  split; assumption.
Qed.

(** With [force_refresh = True], [get_token] sends a token request even
    when a valid token is cached; on a well-formed answer it stores and
    returns the new token, expiring [expires_in] seconds after the
    request. *)
Theorem get_token_force_refresh h ua e w resp tok E :
  token_reply e h = Ok resp ->
  resp !! "error"%string = None ->
  resp !! "access_token"%string = Some tok ->
  resp !! "expires_in"%string = Some (JInt E) ->
  - 999999999 * 86400 <= E < 1000000000 * 86400 ->
  0 <= now e + E * 1000000 < DATETIME_END ->
  exists w',
    get_token h true ua e w = (w', Ok tok) /\
    tokens (cred w') !! h = Some (mk_entry tok (now e + E * 1000000)) /\
    trace w' = trace w ++ [token_request w h ua].
Proof.
  intros Hr He Ha Hx HE Hd.
  assert (Hok : exists w1, retrieve_token h ua e w = (w1, Ok tt)).
  { unfold retrieve_token. mstep. rewrite Hr, He, Ha, Hx. simpl. unfold timedelta_s.
    replace ((- 999999999 * 86400 <=? E) && (E <? 1000000000 * 86400)) with true
      by (symmetry; apply andb_true_iff; split; [apply Z.leb_le | apply Z.ltb_lt]; lia).
    simpl. unfold dt_add.
    replace ((0 <=? now e + E * 1000000) && (now e + E * 1000000 <? DATETIME_END)) with true
      by (symmetry; apply andb_true_iff; split; [apply Z.leb_le | apply Z.ltb_lt]; lia).
    simpl. eauto. }
  destruct Hok as [w1 Hok].
  pose proof (retrieve_token_entry h ua e w w1 resp tok E Hr He Ha Hx Hok) as Hl.
  pose proof (retrieve_token_trace h ua e w) as Ht. rewrite Hok in Ht. cbn [fst] in Ht.
  exists w1. split; [|split; [exact Hl|exact Ht]].
  unfold get_token. mstep. rewrite Hok. simpl. rewrite Hl. reflexivity.
Qed.

Lemma new_client_ok url e w w1 :
  new_client url e w = (w1, Ok tt) ->
  wsdl_reply e = Ok tt /\ w1 = mk_world (cred w) (fs w) (trace w ++ [WsdlFetch url]).
Proof.
  unfold new_client. intros H. apply mbind_ok_inv in H as [w0 [[] [Hem H]]].
  unfold emit, modify in Hem. inversion Hem; subst w0.
  apply mbind_ok_inv in H as [w5 [rr [Ha Hl]]]. unfold ask in Ha. inversion Ha; subst.
  unfold lift in Hl. inversion Hl; subst. split; reflexivity.
Qed.

(** A successful [get_result] downloads the WSDL, sends at most one token
    request (only with a credential object) and no other request, leaves
    the files alone, and returns the answer of the [GetResult] call made
    with the operation name as given (the empty name included), the
    workspace id, the entry code, the configured user agent, the bearer
    token and the parameters for the plugin. *)
Theorem get_result_requests (svc : GetResult.getresult_call -> res (option sval))
    (ws : webservices) (op : string) (params : option (list (string * string)))
    (auth : authentication) (e : env) (w w' : world) (r : option sval) :
  GetResult.get_result svc ws op params auth e w = (w', Ok r) ->
  exists tk bearer,
    svc (GetResult.mk_call op (ws_workspace_id ws)
           (match auth with AuthEntrycode c => Some c | _ => None end)
           (ws_user_agent ws) bearer params) = Ok r /\
    trace w' = trace w ++ [WsdlFetch (wsdl_url ws)] ++ tk /\
    fs w' = fs w /\
    match auth with
    | AuthCred => (tk = [] \/ tk = [token_request w (ws_hostname ws) USER_AGENT]) /\ bearer <> None
    | _ => tk = [] /\ bearer = None
    end.
Proof.
  unfold GetResult.get_result. intros H.
  apply mbind_ok_inv in H as [w1 [[] [Hnc H]]].
  destruct (new_client_ok _ _ _ _ Hnc) as [_ ->]. cbv zeta in H.
  apply mbind_ok_inv in H as [w3 [bearer [Hb H]]]. unfold lift in H. injection H as <- Hsvc.
  destruct auth as [|c|].
  - apply mret_inv in Hb as [-> <-]. exists [], None.
    split; [exact Hsvc|]. split; [rewrite app_nil_r; reflexivity|]. split; [reflexivity|].
    split; reflexivity.
  - apply mret_inv in Hb as [-> <-]. exists [], None.
    split; [exact Hsvc|]. split; [rewrite app_nil_r; reflexivity|]. split; [reflexivity|].
    split; reflexivity.
  - apply mbind_ok_inv in Hb as [w6 [t [Hg Hb]]]. apply mret_inv in Hb as [-> <-].
    pose proof (get_token_frame (ws_hostname ws) false USER_AGENT e
                  (mk_world (cred w) (fs w) (trace w ++ [WsdlFetch (wsdl_url ws)]))) as [_ Hf].
    rewrite Hg in Hf. cbn [fst fs] in Hf.
    destruct (get_token_trace_cases (ws_hostname ws) false USER_AGENT e
                (mk_world (cred w) (fs w) (trace w ++ [WsdlFetch (wsdl_url ws)]))) as [Ht|Ht];
      rewrite Hg in Ht; cbn [fst trace] in Ht.
    + exists [], (Some t). split; [exact Hsvc|]. rewrite app_nil_r.
      split; [exact Ht|]. split; [exact Hf|]. split; [left; reflexivity|discriminate].
    + exists [token_request w (ws_hostname ws) USER_AGENT], (Some t). split; [exact Hsvc|].
      split; [rewrite Ht, <- app_assoc; reflexivity|]. split; [exact Hf|].
      split; [right; reflexivity|discriminate].
Qed.

Section Zip.
Variable xml_str : list (list (string * string)) -> string.
Variable zip_bytes : list (string * string) -> string.
Variable b64encode : string -> string.

Lemma zip_documents_content zp entries docs cs e w w' ents' :
  Forall2 (fun d c => d <> zp /\ fs w !! d = Some c) docs cs ->
  fs w !! zp = Some (zip_bytes entries) ->
  zip_documents zip_bytes zp entries docs e w = (w', Ok ents') ->
  ents' = entries ++ map (fun dc => (Path.join "Documents" (Path.tail dc.1), dc.2)) (combine docs cs) /\
  fs w' !! zp = Some (zip_bytes ents') /\
  (forall k, k <> zp -> fs w' !! k = fs w !! k).
Proof.
  intros HF. revert entries w cs HF. induction docs as [|d t IH]; intros entries w cs HF Hz H;
    inversion HF as [|? c ? cs' [Hne Hd] HF']; subst.
  - cbn [zip_documents] in H. apply mret_inv in H as [-> <-].
    rewrite app_nil_r. split; [reflexivity|]. split; [exact Hz|]. intros; reflexivity.
  - cbn [zip_documents] in H. apply mbind_ok_inv in H as [w1 [c1 [Hr H]]].
    unfold read_file in Hr. apply mbind_ok_inv in Hr as [w2 [f [Hf Hr]]].
    unfold gets in Hf. injection Hf as <- <-. unfold lift, of_option in Hr. rewrite Hd in Hr.
    injection Hr as <- <-.
    apply mbind_ok_inv in H as [w3 [ent [Ha H]]].
    unfold zip_add in Ha. apply mbind_ok_inv in Ha as [w4 [[] [Hwr Ha]]].
    rewrite write_file_run in Hwr. injection Hwr as Hw4. apply mret_inv in Ha as [Hw3 Hent]. subst ent.
    assert (Hw : w3 = mk_world (cred w)
                   (<[zp := zip_bytes (entries ++ [(Path.join "Documents" (Path.tail d), c)])]> (fs w))
                   (trace w)) by congruence.
    assert (HF2 : Forall2 (fun d c => d <> zp /\ fs w3 !! d = Some c) t cs').
    { apply Forall2_impl with (1 := HF'). intros d' c' [Hne' Hc'].
      split; [exact Hne'|]. rewrite Hw. cbn [fs]. rewrite lookup_insert_ne by congruence. exact Hc'. }
    assert (Hz2 : fs w3 !! zp = Some (zip_bytes (entries ++ [(Path.join "Documents" (Path.tail d), c)])))
      by (rewrite Hw; cbn [fs]; apply lookup_insert_eq).
    destruct (IH _ _ _ HF2 Hz2 H) as [He [Hz' Hk]].
    split; [rewrite He, <- app_assoc; reflexivity|]. split; [exact Hz'|].
    intros k Hk'. rewrite Hk by exact Hk'. rewrite Hw. cbn [fs]. apply lookup_insert_ne. congruence.
Qed.

Lemma read_file_ok p e w w' c : read_file p e w = (w', Ok c) -> w' = w /\ fs w !! p = Some c.
Proof.
  unfold read_file. intros H. apply mbind_ok_inv in H as [w2 [f [Hf H]]].
  unfold gets in Hf. injection Hf as <- <-. unfold lift, of_option in H.
  destruct (fs w !! p); inversion H; subst. split; reflexivity.
Qed.

Lemma zip_add_ok zp entries a c e w w' ent :
  zip_add zip_bytes zp entries a c e w = (w', Ok ent) ->
  ent = entries ++ [(a, c)] /\ w' = mk_world (cred w) (<[zp := zip_bytes ent]> (fs w)) (trace w).
Proof.
  unfold zip_add. intros H. apply mbind_ok_inv in H as [w4 [[] [Hwr H]]].
  rewrite write_file_run in Hwr. injection Hwr as Hw4. apply mret_inv in H as [Hw He].
  subst. split; reflexivity.
Qed.

(** The archive [run_import] encodes holds the documents, each under
    [Documents/] and its base name, in the order given, then the data
    member: the generated XML named after the base name and the data
    extension, or the data file under its base name. *)
Lemma encode_with_content basename ext data docs cs keep e w w' ds ext' :
  Forall2 (fun d c => d <> Path.join (tmpdir e) (basename ++ ".zip") /\ fs w !! d = Some c) docs cs ->
  (forall p, data = DPath p -> p <> Path.join (tmpdir e) (basename ++ ".zip")) ->
  encode_with_documents xml_str zip_bytes b64encode basename ext data docs keep e w = (w', Ok (ds, ext')) ->
  ds = b64encode (zip_bytes
         (map (fun dc => (Path.join "Documents" (Path.tail dc.1), dc.2)) (combine docs cs) ++
          match data with
          | DRows rows => [((basename ++ "." ++ ext)%string, xml_str rows)]
          | DPath p => match fs w !! p with Some c => [(Path.tail p, c)] | None => [] end
          | DOther _ => []
          end)).
Proof.
  set (zp := Path.join (tmpdir e) (basename ++ ".zip")). intros HF Hp H.
  unfold encode_with_documents in H.
  apply mbind_ok_inv in H as [w0 [tmp [Ht H]]]. unfold ask in Ht. injection Ht as <- <-.
  fold zp in H.
  apply mbind_ok_inv in H as [w1 [[] [Hw H]]]. rewrite write_file_run in Hw. injection Hw as Hw1.
  apply mbind_ok_inv in H as [w2 [ent [Hz H]]].
  assert (HF1 : Forall2 (fun d c => d <> zp /\ fs w1 !! d = Some c) docs cs).
  { apply Forall2_impl with (1 := HF). intros d c [Hne Hc]. split; [exact Hne|].
    rewrite <- Hw1. cbn [fs]. rewrite lookup_insert_ne by congruence. exact Hc. }
  assert (Hz1 : fs w1 !! zp = Some (zip_bytes [])) by (rewrite <- Hw1; apply lookup_insert_eq).
  destruct (zip_documents_content zp [] docs cs e w1 w2 ent HF1 Hz1 Hz) as [-> [Hz2 Hk]].
  cbn [app] in *.
  apply mbind_ok_inv in H as [w3 [ent2 [Hd H]]].
  assert (Hz3 : fs w3 !! zp = Some (zip_bytes (map (fun dc => (Path.join "Documents" (Path.tail dc.1), dc.2)) (combine docs cs) ++
          match data with
          | DRows rows => [((basename ++ "." ++ ext)%string, xml_str rows)]
          | DPath p => match fs w !! p with Some c => [(Path.tail p, c)] | None => [] end
          | DOther _ => []
          end))).
  { destruct data as [rows|p|b].
    - apply zip_add_ok in Hd as [-> ->]. apply lookup_insert_eq.
    - apply mbind_ok_inv in Hd as [w4 [c [Hr Hd]]]. apply read_file_ok in Hr as [-> Hr].
      assert (Hpw : fs w !! p = Some c).
      { rewrite Hk in Hr by exact (Hp p eq_refl). rewrite <- Hw1 in Hr. cbn [fs] in Hr.
        rewrite lookup_insert_ne in Hr by (intros Heq; exact (Hp p eq_refl (eq_sym Heq))). exact Hr. }
      rewrite Hpw. apply zip_add_ok in Hd as [-> ->]. apply lookup_insert_eq.
    - apply mret_inv in Hd as [-> <-]. rewrite app_nil_r. exact Hz2. }
  apply mbind_ok_inv in H as [w4 [zipped [Hr H]]]. apply read_file_ok in Hr as [-> Hr].
  rewrite Hz3 in Hr. injection Hr as <-.
  apply mbind_ok_inv in H as [w5 [[] [_ H]]]. apply mret_inv in H as [_ H].
  injection H as <- _. reflexivity.
Qed.

(** With documents, the data of the [Import] call a successful
    [run_import] makes is the base64 text of a zip archive holding each
    document under [Documents/] and its base name, in the order given,
    followed by the data member (the generated XML as [<basename>.xml],
    or the data file under its base name), when no document and no data
    file is the temporary zip path itself. *)
Theorem run_import_zip_payload (ws : webservices) (op : string) (data : import_data)
    (auth : authentication) (fn : option string) (docs cs : list string) (keep : bool)
    (e : env) (w w' : world) (r : option sval) :
  Forall2 (fun d c => d <> temp_zip_path e fn /\ fs w !! d = Some c) docs cs ->
  (forall p, data = DPath p -> p <> temp_zip_path e fn) ->
  run_import xml_str zip_bytes b64encode ws op data auth fn (Some docs) keep e w = (w', Ok r) ->
  exists pre bearer,
    trace w' = pre ++
      [SoapImport op (file_basename fn ++ ".zip")
         (b64encode (zip_bytes
            (map (fun dc => (Path.join "Documents" (Path.tail dc.1), dc.2)) (combine docs cs) ++
             match data with
             | DRows rows => [((file_basename fn ++ ".xml")%string, xml_str rows)]
             | DPath p => match fs w !! p with Some c => [(Path.tail p, c)] | None => [] end
             | DOther _ => []
             end)))
         (match auth with AuthEntrycode c => Some c | _ => None end) bearer].
Proof.
  intros HF Hp H. unfold run_import in H.
  destruct (String.eqb op ""); [unfold raise in H; discriminate|].
  destruct (data_truthy data); cbn [negb] in H; [|unfold raise in H; discriminate].
  apply mbind_ok_inv in H as [w1 [[] [Hnc H]]].
  destruct (new_client_ok _ _ _ _ Hnc) as [_ ->].
  apply mbind_ok_inv in H as [w1' [ext [Hx H]]]. unfold lift in Hx. injection Hx as <- Hext.
  apply mbind_ok_inv in H as [w2 [[ds ext'] [Henc H]]].
  pose proof (encode_with_ext _ _ _ _ _ _ _ _ _ _ _ _ _ Henc) as Hz. subst ext'.
  assert (Hds := Henc). eapply encode_with_content in Hds; [| exact HF | exact Hp].
  cbv beta iota in H.
  destruct (run_import_tail_trace _ _ _ _ _ _ _ _ _ H) as [_ [tk [bearer [Htr _]]]].
  exists (trace w2 ++ tk), bearer. rewrite Htr, <- app_assoc. f_equal. f_equal. f_equal.
  rewrite Hds. destruct data; [|reflexivity|reflexivity].
  cbn in Hext. injection Hext as <-. reflexivity.
Qed.

End Zip.

Section ClientWitnesses.
Import Fixtures3.

Lemma run_import_request_sequence_witness :
  exists w' r,
    run_import xml0 zip0 b640 acme "ImportOperation" rows1 AuthCred None None false
      (token_env T0 3600) world0 = (w', Ok r) /\
    import_reply (token_env T0 3600) = Ok r.
Proof.
  do 2 eexists. split; [vm_compute; reflexivity|].
  exact (proj1 (run_import_request_sequence xml0 zip0 b640 acme "ImportOperation" rows1 AuthCred
                  None None false (token_env T0 3600) world0 _ _ ltac:(vm_compute; reflexivity))).
Defined.

Lemma run_import_zip_payload_witness :
  exists w' r,
    run_import xml0 zip_listing b640 acme "ImportOperation" rows1 AuthNone None
      (Some ["/home/user/drawing.pdf"%string]) false import_env drawing_world = (w', Ok r) /\
    exists pre bearer,
      trace w' = pre ++ [SoapImport "ImportOperation" "pyrelatics_webservice.zip"
                           "Documents/drawing.pdf=%PDF;pyrelatics_webservice.xml=<Import/>" None bearer].
Proof.
  do 2 eexists. split; [vm_compute; reflexivity|].
  destruct (run_import_zip_payload xml0 zip_listing b640 acme "ImportOperation" rows1 AuthNone None
              ["/home/user/drawing.pdf"%string] ["%PDF"%string] false import_env drawing_world _ _
              ltac:(constructor; [split; [vm_compute; discriminate | reflexivity] | constructor])
              ltac:(intros p Hp; discriminate Hp) ltac:(vm_compute; reflexivity)) as [pre [b H]].
  exists pre, b. rewrite H. vm_compute. reflexivity.
Defined.

Lemma retrieve_token_failure_atomic_witness :
  exists w' x,
    retrieve_token acme_host USER_AGENT import_env world0 = (w', Err x) /\
    trace w' = [token_request world0 acme_host USER_AGENT].
Proof.
  do 2 eexists. split; [vm_compute; reflexivity|].
  exact (proj2 (proj2 (retrieve_token_failure_atomic acme_host USER_AGENT import_env world0 _ _
                         ltac:(vm_compute; reflexivity)))).
Defined.

Lemma retrieve_token_error_response_witness :
  (retrieve_token acme_host USER_AGENT refusing_env world0).2 =
    Err (if refusal !! "error_description"%string then RuntimeError else KeyError).
Proof.
  exact (retrieve_token_error_response acme_host USER_AGENT refusing_env world0 refusal
           (JStr "invalid_client") eq_refl ltac:(vm_compute; reflexivity)).
Defined.

Lemma get_token_failure_witness :
  exists w' x,
    get_token acme_host false USER_AGENT import_env world0 = (w', Err x) /\
    retrieve_token acme_host USER_AGENT import_env world0 = (w', Err x).
Proof.
  do 2 eexists. split; [vm_compute; reflexivity|].
  exact (proj1 (get_token_failure acme_host false USER_AGENT import_env world0 _ _
                  ltac:(vm_compute; reflexivity))).
Defined.

Lemma get_token_force_refresh_witness :
  exists w',
    get_token acme_host true USER_AGENT (token_env T0 3600) cached_world = (w', Ok (JStr "tok")) /\
    trace w' = [token_request cached_world acme_host USER_AGENT].
Proof.
  destruct (get_token_force_refresh acme_host USER_AGENT (token_env T0 3600) cached_world
              (<["access_token"%string := JStr "tok"]> (<["expires_in"%string := JInt 3600]> ∅))
              (JStr "tok") 3600 eq_refl ltac:(vm_compute; reflexivity) ltac:(vm_compute; reflexivity)
              ltac:(vm_compute; reflexivity) ltac:(lia)
              ltac:(cbn [now token_env]; unfold T0, DATETIME_END; lia)) as [w' [H1 [_ H3]]].
  exists w'. split; [exact H1 | exact H3].
Defined.

Lemma get_result_requests_witness :
  exists w' r,
    GetResult.get_result echo_service acme "Report" None (AuthEntrycode "code-1") import_env world0
      = (w', Ok r) /\
    echo_service (GetResult.mk_call "Report" (ws_workspace_id acme) (Some "code-1"%string)
                    (ws_user_agent acme) None None) = Ok r.
Proof.
  do 2 eexists. split; [vm_compute; reflexivity|].
  destruct (get_result_requests echo_service acme "Report" None (AuthEntrycode "code-1") import_env
              world0 _ _ ltac:(vm_compute; reflexivity)) as [tk [bearer [Hs [_ [_ [_ Hb]]]]]].
  rewrite Hb in Hs. exact Hs.
Defined.

End ClientWitnesses.

End ClientMore.

(* ------------------------------------------------------------------ *)
(** * The [AddParametersPlugin] *)

Module SaxProofs.
Import Sax Props.

Lemma el_name_with_children e cs : el_name (with_children e cs) = el_name e.
Proof. destruct e; reflexivity. Qed.

Lemma el_ns_with_children e cs : el_ns (with_children e cs) = el_ns e.
Proof. destruct e; reflexivity. Qed.

Lemma el_children_with_children e cs : el_children (with_children e cs) = cs.
Proof. destruct e; reflexivity. Qed.

Lemma with_children_twice e cs cs' : with_children (with_children e cs) cs' = with_children e cs'.
Proof. destruct e; reflexivity. Qed.

Lemma el_name_update_child0 f e : el_name (update_child0 f e) = el_name e.
Proof. unfold update_child0. destruct (el_children e); [reflexivity|apply el_name_with_children]. Qed.

Lemma el_ns_update_child0 f e : el_ns (update_child0 f e) = el_ns e.
Proof. unfold update_child0. destruct (el_children e); [reflexivity|apply el_ns_with_children]. Qed.

Lemma el_name_update_child n f e : el_name (update_child n f e) = el_name e.
Proof. apply el_name_with_children. Qed.

Lemma el_ns_update_child n f e : el_ns (update_child n f e) = el_ns e.
Proof. apply el_ns_with_children. Qed.

Lemma el_ns_append e c : el_ns (append e c) = el_ns e.
Proof. apply el_ns_with_children. Qed.

(** The lookup of a child by name sees through a change of that child
    which keeps its name. *)
Lemma get_child_update n f e :
  (forall c, el_name (f c) = el_name c) ->
  get_child n (update_child n f e) = option_map f (get_child n e).
Proof.
  intros Hf. unfold get_child, update_child. rewrite el_children_with_children.
  induction (el_children e) as [|c t IH]; [reflexivity|]. simpl.
  destruct (String.eqb (el_name c) n) eqn:E; simpl; [rewrite Hf, E; reflexivity|].
  rewrite E. exact IH.
Qed.

Lemma child0_update0 f e : child0 (update_child0 f e) = option_map f (child0 e).
Proof.
  unfold child0, update_child0. destruct (el_children e) eqn:E; [rewrite E; reflexivity|].
  rewrite el_children_with_children. reflexivity.
Qed.

Lemma update_child_comp n f g e :
  (forall c, el_name (g c) = el_name c) ->
  update_child n f (update_child n g e) = update_child n (fun c => f (g c)) e.
Proof.
  intros Hg. unfold update_child. rewrite el_children_with_children, with_children_twice. f_equal.
  induction (el_children e) as [|c t IH]; [reflexivity|]. simpl.
  destruct (String.eqb (el_name c) n) eqn:E; simpl; [rewrite Hg, E; reflexivity|].
  rewrite E, IH. reflexivity.
Qed.

Lemma update_child0_comp f g e : update_child0 f (update_child0 g e) = update_child0 (fun c => f (g c)) e.
Proof.
  unfold update_child0. destruct (el_children e) eqn:E; [rewrite E; reflexivity|].
  rewrite el_children_with_children, with_children_twice. reflexivity.
Qed.

(** Only the first child of that name matters to [update_child]. *)
Lemma update_child_ext n f g e c :
  get_child n e = Some c -> f c = g c -> update_child n f e = update_child n g e.
Proof.
  unfold get_child, update_child. intros Hc Hfg. f_equal.
  induction (el_children e) as [|d t IH]; [discriminate|]. simpl in *.
  destruct (String.eqb (el_name d) n); [injection Hc as ->; rewrite Hfg; reflexivity|].
  rewrite IH by exact Hc. reflexivity.
Qed.

Lemma update_child0_ext f g e c :
  child0 e = Some c -> f c = g c -> update_child0 f e = update_child0 g e.
Proof.
  unfold child0, update_child0. destruct (el_children e); [discriminate|].
  intros Hc Hfg. injection Hc as ->. rewrite Hfg. reflexivity.
Qed.

(** Appending a child named [n] to an element with no child of that
    name: the appended one is found, and it is the one updated. *)
Lemma get_child_append_new n e c :
  get_child n e = None -> el_name c = n -> get_child n (append e c) = Some c.
Proof.
  unfold get_child, append. rewrite el_children_with_children. intros Hn Hc.
  induction (el_children e) as [|d t IH]; simpl in *.
  - rewrite Hc, String.eqb_refl. reflexivity.
  - destruct (String.eqb (el_name d) n); [discriminate|]. exact (IH Hn).
Qed.

Lemma update_child_append_new n f e c :
  get_child n e = None -> el_name c = n -> update_child n f (append e c) = append e (f c).
Proof.
  unfold get_child, update_child, append. rewrite el_children_with_children, !with_children_twice.
  intros Hn Hc. f_equal.
  induction (el_children e) as [|d t IH]; simpl in *.
  - rewrite Hc, String.eqb_refl. reflexivity.
  - destruct (String.eqb (el_name d) n); [discriminate|]. rewrite (IH Hn). reflexivity.
Qed.

(** [findPrefix] only reads the namespace declarations of the chain. *)
Lemma find_prefix_ns c1 c2 u :
  map el_ns c1 = map el_ns c2 -> find_prefix c1 u = find_prefix c2 u.
Proof.
  revert c2. induction c1 as [|a t IH]; intros [|b t'] H; try discriminate; [reflexivity|].
  injection H as Hab Ht. simpl. rewrite Hab, (IH t' Ht). reflexivity.
Qed.

Lemma add_parameter_eq pr p kv :
  add_parameter pr p kv = with_children p (el_children p ++ [param_elem pr kv]).
Proof. destruct p, kv; reflexivity. Qed.

(** The loop over the items appends one [Parameter] per item, in order. *)
Lemma fold_add_parameter pr items p :
  fold_left (add_parameter pr) items p = with_children p (el_children p ++ map (param_elem pr) items).
Proof.
  revert p. induction items as [|kv t IH]; intros p; cbn [fold_left map].
  - rewrite app_nil_r. destruct p; reflexivity.
  - rewrite IH, add_parameter_eq, el_children_with_children, with_children_twice, <- app_assoc.
    reflexivity.
Qed.

Lemma lookup_params_update f env p anc :
  (forall c, el_name (f c) = el_name c) ->
  lookup_params env = Ok (Some (p, anc)) ->
  exists anc', lookup_params (update_params f env) = Ok (Some (f p, anc')).
Proof.
  intros Hf. unfold lookup_params, update_params.
  destruct (get_child "Body" env) as [body|] eqn:Hb; [|discriminate].
  destruct (child0 body) as [root|] eqn:Hr; [|discriminate].
  destruct (get_child "Parameters" root) as [ps|] eqn:Hp; [|discriminate].
  destruct (child0 ps) as [p0|] eqn:Hq; [|discriminate].
  intros H. injection H as <- _.
  rewrite get_child_update by (intros; apply el_name_update_child0). rewrite Hb. cbn [option_map].
  rewrite child0_update0, Hr. cbn [option_map].
  rewrite get_child_update by (intros; apply el_name_update_child0). rewrite Hp. cbn [option_map].
  rewrite child0_update0, Hq. cbn [option_map]. eauto.
Qed.

Lemma find_prefix_fresh pr n a c up :
  find_prefix (El pr n [] a c :: up) RELATICS_NS = find_prefix up RELATICS_NS.
Proof. reflexivity. Qed.

Section Built.
Variables (envelope body root : element) (Y : element).
Hypothesis Hb : get_child "Body" envelope = Some body.
Hypothesis Hr : child0 body = Some root.
Hypothesis Hp : get_child "Parameters" root = None.
Hypothesis HY : el_name Y = "Parameters"%string.

Definition with_Y : element := update_child "Body" (update_child0 (fun r => append r Y)) envelope.

(** Where [lookup_params] looks in an envelope after a [Parameters]
    element has been appended to the root. *)
Lemma lookup_params_with_Y :
  lookup_params with_Y =
    Ok (option_map (fun p => (p, [Y; append root Y; update_child0 (fun r => append r Y) body; with_Y]))
                   (child0 Y)).
Proof.
  unfold lookup_params, with_Y.
  rewrite get_child_update by (intros; apply el_name_update_child0). rewrite Hb. cbn [option_map].
  rewrite child0_update0, Hr. cbn [option_map].
  rewrite (get_child_append_new _ _ _ Hp HY). reflexivity.
Qed.

Lemma find_prefix_with_Y u :
  find_prefix [Y; append root Y; update_child0 (fun r => append r Y) body; with_Y] u =
  find_prefix (Y :: [root; body; envelope]) u.
Proof.
  apply find_prefix_ns. unfold with_Y. simpl.
  rewrite el_ns_append, el_ns_update_child0, el_ns_update_child. reflexivity.
Qed.

Lemma update_params_with_Y f :
  update_params f with_Y =
  update_child "Body" (update_child0 (fun r => append r (update_child0 f Y))) envelope.
Proof.
  unfold update_params, with_Y.
  rewrite update_child_comp by (intros; apply el_name_update_child0).
  apply (update_child_ext _ _ _ _ _ Hb). rewrite update_child0_comp.
  apply (update_child0_ext _ _ _ _ Hr). exact (update_child_append_new _ _ _ _ Hp HY).
Qed.

End Built.

Lemma lookup_params_err_type envelope body root :
  get_child "Body" envelope = Some body -> child0 body = Some root ->
  get_child "Parameters" root = None -> lookup_params envelope = Err TypeError.
Proof. intros Hb Hr Hp. unfold lookup_params. rewrite Hb, Hr, Hp. reflexivity. Qed.

(** The structure [marshalled] builds when the root has no [Parameters]. *)
Lemma marshalled_build items envelope body root :
  get_child "Body" envelope = Some body -> child0 body = Some root ->
  get_child "Parameters" root = None ->
  let pr := find_prefix [root; body; envelope] RELATICS_NS in
  marshalled (Some items) envelope =
    Ok (update_child "Body"
          (update_child0 (fun r => append r
             (El pr "Parameters" [] [] [El pr "Parameters" [] [] (map (param_elem pr) items)])))
          envelope).
Proof.
  intros Hb Hr Hp pr. unfold marshalled.
  rewrite (lookup_params_err_type _ _ _ Hb Hr Hp), Hb, Hr. cbv zeta. fold pr.
  set (Y := append (set_prefix pr (new_element "Parameters")) (set_prefix pr (new_element "Parameters"))).
  change (update_child "Body" (update_child0 (fun r => append r Y)) envelope) with (with_Y envelope Y).
  assert (HY : el_name Y = "Parameters"%string) by reflexivity.
  rewrite (lookup_params_with_Y _ _ _ _ Hb Hr Hp HY). cbn [res_bind option_map].
  replace (child0 Y) with (Some (El pr "Parameters" [] [] [])) by reflexivity. cbn [option_map].
  assert (Hpr : find_prefix [El pr "Parameters" [] [] []; Y; append root Y;
                             update_child0 (fun r => append r Y) body; with_Y envelope Y] RELATICS_NS = pr).
  { rewrite find_prefix_fresh, find_prefix_with_Y. reflexivity. }
  rewrite Hpr, (update_params_with_Y _ _ _ _ Hb Hr Hp HY).
  do 4 f_equal. unfold Y. cbn. rewrite fold_add_parameter. reflexivity.
Qed.

(** [marshalled] with parameters on an envelope whose [Parameters] has
    a first child. *)
Lemma marshalled_existing items env p anc :
  lookup_params env = Ok (Some (p, anc)) ->
  exists anc',
    lookup_params (update_params (fun q => fold_left (add_parameter (find_prefix (p :: anc) RELATICS_NS)) items q) env)
      = Ok (Some (with_children p (el_children p ++ map (param_elem (find_prefix (p :: anc) RELATICS_NS)) items), anc')) /\
    marshalled (Some items) env =
      Ok (update_params (fun q => fold_left (add_parameter (find_prefix (p :: anc) RELATICS_NS)) items q) env).
Proof.
  intros H.
  destruct (lookup_params_update (fun q => fold_left (add_parameter (find_prefix (p :: anc) RELATICS_NS)) items q)
              env p anc
              ltac:(intros c; rewrite fold_add_parameter; apply el_name_with_children) H) as [anc' Ha].
  exists anc'. rewrite fold_add_parameter in Ha. split; [exact Ha|].
  unfold marshalled. rewrite H. reflexivity.
Qed.

(** Theorems *)

(** When the first element of the SOAP body has no [Parameters] child,
    [marshalled] appends to it a [Parameters] element holding one
    [Parameters] element, which holds one [Parameter] element per item
    of the dict, in order, with attributes [Name] and [Value]; the three
    kinds of elements get the prefix declared for the Relatics namespace
    on the root or above it. Nothing else of the envelope changes. *)
Theorem marshalled_builds_parameters items envelope body root :
  get_child "Body" envelope = Some body -> child0 body = Some root ->
  get_child "Parameters" root = None ->
  let pr := find_prefix [root; body; envelope] RELATICS_NS in
  marshalled (Some items) envelope =
    Ok (update_child "Body"
          (update_child0 (fun r => append r
             (El pr "Parameters" [] [] [El pr "Parameters" [] [] (map (param_elem pr) items)])))
          envelope).
Proof. exact (marshalled_build items envelope body root). Qed.

(** When the body already holds [Body[0]/Parameters[0]], [marshalled]
    keeps its children and appends after them one [Parameter] per item, in
    order, with the prefix found from that element upward. *)
Theorem marshalled_appends_parameters items env p anc :
  lookup_params env = Ok (Some (p, anc)) ->
  exists env' anc',
    marshalled (Some items) env = Ok env' /\
    lookup_params env' =
      Ok (Some (with_children p (el_children p ++ map (param_elem (find_prefix (p :: anc) RELATICS_NS)) items),
                anc')).
Proof.
  intros H. destruct (marshalled_existing items env p anc H) as [anc' [Ha Hm]].
  rewrite Hm. eexists _, anc'. split; [reflexivity | exact Ha].
Qed.

(** [marshalled] with parameters raises exactly in three cases: TypeError
    when the envelope has no [Body], AttributeError when the body is
    empty, and AttributeError when its [Parameters] element has no child. *)
Theorem marshalled_errors items envelope x :
  marshalled (Some items) envelope = Err x <->
  (get_child "Body" envelope = None /\ x = TypeError) \/
  (exists body, get_child "Body" envelope = Some body /\ child0 body = None /\ x = AttributeError) \/
  (exists body root ps, get_child "Body" envelope = Some body /\ child0 body = Some root /\
     get_child "Parameters" root = Some ps /\ child0 ps = None /\ x = AttributeError).
Proof.
  destruct (get_child "Body" envelope) as [body|] eqn:Hb.
  - destruct (child0 body) as [root|] eqn:Hr.
    + destruct (get_child "Parameters" root) as [ps|] eqn:Hp.
      * destruct (child0 ps) as [p|] eqn:Hq.
        -- assert (Hl : lookup_params envelope = Ok (Some (p, [ps; root; body; envelope])))
             by (unfold lookup_params; rewrite Hb, Hr, Hp, Hq; reflexivity).
           destruct (marshalled_existing items envelope p _ Hl) as [_ [_ ->]].
           split; [discriminate|].
           intros [[? _]|[[b' [Hb' [? _]]]|[b' [r' [p' [Hb' [Hr' [Hp' [Hq' _]]]]]]]]]; [discriminate| |].
           ++ injection Hb' as <-. congruence.
           ++ injection Hb' as <-. rewrite Hr in Hr'. injection Hr' as <-. rewrite Hp in Hp'.
              injection Hp' as <-. congruence.
        -- unfold marshalled, lookup_params. rewrite Hb, Hr, Hp, Hq. cbn. split.
           ++ intros H. injection H as <-. right. right. eauto 10.
           ++ intros [[? _]|[[b' [Hb' [? _]]]|[b' [r' [p' [Hb' [Hr' [Hp' [Hq' ->]]]]]]]]];
                [discriminate| |reflexivity].
              injection Hb' as <-. congruence.
      * rewrite (marshalled_build items envelope body root Hb Hr Hp). split; [discriminate|].
        intros [[? _]|[[b' [Hb' [? _]]]|[b' [r' [p' [Hb' [Hr' [Hp' _]]]]]]]]; [discriminate| |].
        -- injection Hb' as <-. congruence.
        -- injection Hb' as <-. rewrite Hr in Hr'. injection Hr' as <-. congruence.
    + unfold marshalled, lookup_params. rewrite Hb, Hr. cbn. split.
      * intros H. injection H as <-. right. left. eauto.
      * intros [[? _]|[[b' [Hb' [? ->]]]|[b' [r' [p' [Hb' [Hr' _]]]]]]]; [discriminate|reflexivity|].
        injection Hb' as <-. congruence.
  - unfold marshalled, lookup_params. rewrite Hb. cbn. split.
    + intros H. injection H as <-. left. split; reflexivity.
    + intros [[_ ->]|[[b' [Hb' _]]|[b' [_ [_ [Hb' _]]]]]]; [reflexivity|discriminate|discriminate].
Qed.

(** [marshalled] does not look for parameters already in the envelope:
    on a root without [Parameters], two calls leave one [Parameters]
    element holding the [Parameter] elements of both calls, those of the
    first call first. *)
Theorem marshalled_twice items1 items2 envelope body root :
  get_child "Body" envelope = Some body -> child0 body = Some root ->
  get_child "Parameters" root = None ->
  let pr := find_prefix [root; body; envelope] RELATICS_NS in
  exists env1 env2 anc,
    marshalled (Some items1) envelope = Ok env1 /\
    marshalled (Some items2) env1 = Ok env2 /\
    lookup_params env2 =
      Ok (Some (El pr "Parameters" [] [] (map (param_elem pr) items1 ++ map (param_elem pr) items2), anc)).
Proof.
  intros Hb Hr Hp pr.
  set (X := El pr "Parameters" [] [] [El pr "Parameters" [] [] (map (param_elem pr) items1)]).
  assert (HX : el_name X = "Parameters"%string) by reflexivity.
  assert (Hl := lookup_params_with_Y _ _ _ X Hb Hr Hp HX).
  replace (child0 X) with (Some (El pr "Parameters" [] [] (map (param_elem pr) items1))) in Hl
    by reflexivity. cbn [option_map] in Hl.
  destruct (marshalled_existing items2 _ _ _ Hl) as [anc' [Ha Hm]].
  assert (Hpr : find_prefix [El pr "Parameters" [] [] (map (param_elem pr) items1); X; append root X;
                             update_child0 (fun r => append r X) body; with_Y envelope X] RELATICS_NS = pr).
  { rewrite find_prefix_fresh, find_prefix_with_Y. reflexivity. }
  rewrite Hpr in Ha, Hm.
  exists (with_Y envelope X),
    (update_params (fun q => fold_left (add_parameter pr) items2 q) (with_Y envelope X)), anc'.
  split; [exact (marshalled_build items1 envelope body root Hb Hr Hp)|].
  split; [exact Hm|]. rewrite Ha. reflexivity.
Qed.

Section SaxWitnesses.
Import Fixtures3.

Lemma marshalled_builds_parameters_witness :
  marshalled (Some [("Year"%string, "2024"%string)]) (soap_envelope []) =
    Ok (soap_envelope
          [El (Some "ns0"%string) "Parameters" [] []
             [El (Some "ns0"%string) "Parameters" [] []
                [El (Some "ns0"%string) "Parameter" [] [("Name"%string, "Year"%string); ("Value"%string, "2024"%string)] []]]]).
Proof.
  exact (marshalled_builds_parameters [("Year"%string, "2024"%string)] (soap_envelope []) (soap_body [])
           (getresult_root []) eq_refl eq_refl eq_refl).
Defined.

Lemma marshalled_appends_parameters_witness :
  exists p anc,
    lookup_params (soap_envelope existing_params) = Ok (Some (p, anc)) /\
    exists env' anc',
      marshalled (Some [("Year"%string, "2024"%string)]) (soap_envelope existing_params) = Ok env' /\
      lookup_params env' =
        Ok (Some (El (Some "ns0"%string) "Parameters" [] []
                    [param_elem (Some "ns0"%string) ("Project"%string, "P-1"%string);
                     param_elem (Some "ns0"%string) ("Year"%string, "2024"%string)], anc')).
Proof.
  do 2 eexists. split; [vm_compute; reflexivity|].
  exact (marshalled_appends_parameters [("Year"%string, "2024"%string)] (soap_envelope existing_params)
           _ _ ltac:(vm_compute; reflexivity)).
Defined.

Lemma marshalled_twice_witness :
  exists env1 env2 anc,
    marshalled (Some [("Year"%string, "2024"%string)]) (soap_envelope []) = Ok env1 /\
    marshalled (Some [("Year"%string, "2025"%string)]) env1 = Ok env2 /\
    lookup_params env2 =
      Ok (Some (El (Some "ns0"%string) "Parameters" [] []
                  [param_elem (Some "ns0"%string) ("Year"%string, "2024"%string);
                   param_elem (Some "ns0"%string) ("Year"%string, "2025"%string)], anc)).
Proof.
  exact (marshalled_twice [("Year"%string, "2024"%string)] [("Year"%string, "2025"%string)]
           (soap_envelope []) (soap_body []) (getresult_root []) eq_refl eq_refl eq_refl).
Defined.

End SaxWitnesses.

End SaxProofs.
